(** * A shallow embedding of [mcu/websocket.py]

    The MicroPython WebSocket client of wake-on-mcu: the HTTP upgrade
    handshake ([connect]), the frame codec ([_write_frame], [_read_frame]),
    message reassembly ([recv]) and the close sequence ([close],
    [wait_closed]).

    Bytes are integers (a [bytes] object is a list of values in 0..255),
    the socket is an explicit record, and every method is a function in a
    state-and-exception monad over the object it mutates. *)

From Stdlib Require Import String Ascii DecimalString ZArith Bool Lia List.
Import ListNotations.
Open Scope Z_scope.

(** ** Python values *)

Definition bytes := list Z.

(** A [str] is its sequence of code points. *)
Definition pystr := list Z.

Definition bytes_of_string (s : string) : bytes :=
  map (fun c => Z.of_N (N_of_ascii c)) (list_ascii_of_string s).

(** The values that appear as exception arguments. *)
Inductive pyval :=
| VNone
| VInt (z : Z)
| VBytes (b : bytes).

Inductive exn :=
| EOFError
| MemoryError
| TypeError
| UnicodeError
| ValueError (args : list pyval)
| Exception_ (msg : string).

(** What [send] may be handed. *)
Inductive pyobj :=
| PyStr (s : pystr)
| PyBytes (b : bytes)
| PyByteArray (b : bytes)
| PyInt (z : Z)
| PyNone.

(** ** Opcodes and close codes *)

Definition OP_CONT := 0x0.
Definition OP_TEXT := 0x1.
Definition OP_BYTES := 0x2.
Definition OP_CLOSE := 0x8.
Definition OP_PING := 0x9.
Definition OP_PONG := 0xA.

Definition CLOSE_OK := 1000.
Definition CLOSE_GOING_AWAY := 1001.
Definition CLOSE_PROTOCOL_ERROR := 1002.
Definition CLOSE_DATA_NOT_SUPPORTED := 1003.
Definition CLOSE_BAD_DATA := 1007.
Definition CLOSE_POLICY_VIOLATION := 1008.
Definition CLOSE_TOO_BIG := 1009.
Definition CLOSE_MISSING_EXTN := 1010.
Definition CLOSE_BAD_CONDITION := 1011.

(** ** The state-and-exception monad

    A raised exception keeps the mutations made before it. *)

Inductive result (A : Type) :=
| Ret (a : A)
| Raise (e : exn).
Arguments Ret {A} a.
Arguments Raise {A} e.

Definition M (S A : Type) : Type := S -> result A * S.

Definition ret {S A} (a : A) : M S A := fun s => (Ret a, s).
Definition raise {S A} (e : exn) : M S A := fun s => (Raise e, s).
Definition bind {S A B} (m : M S A) (k : A -> M S B) : M S B :=
  fun s => match m s with
           | (Ret a, s1) => k a s1
           | (Raise e, s1) => (Raise e, s1)
           end.

Notation "x <- m ;; k" := (bind m (fun x => k))
  (at level 61, m at next level, right associativity).
Notation "m ;;; k" := (bind m (fun _ => k))
  (at level 61, right associativity).

(** ** [struct]: big-endian packing, MicroPython flavour (a value that does
    not fit its field is truncated to the field's low bytes). *)

Module Struct.

Fixpoint pack_be (n : nat) (x : Z) : bytes :=
  match n with
  | O => []
  | S k => Z.shiftr x (8 * Z.of_nat k) mod 256 :: pack_be k x
  end.

Definition unpack_be (b : bytes) : Z :=
  fold_left (fun acc v => acc * 256 + v) b 0.

(** ['!B'], ['!H'], ['!I'], ['!Q'] *)
Definition pack_B := pack_be 1.
Definition pack_H := pack_be 2.
Definition pack_I := pack_be 4.
Definition pack_Q := pack_be 8.

End Struct.

(** ** [uasyncio.stream.Stream] over a socket *)

Record Stream := mkStream {
  rx : bytes;       (* what the peer sent and was not read yet; then EOF *)
  out_buf : bytes;  (* written, waiting for [drain] *)
  wire : bytes;     (* handed to the socket, in order *)
  closed : bool;    (* the socket was closed *)
  heap : Z          (* the largest buffer the runtime can still allocate *)
}.

Definition set_rx (r : bytes) (st : Stream) : Stream :=
  mkStream r (out_buf st) (wire st) (closed st) (heap st).

Module StreamOps.

(** [readexactly(n)]: nothing to do for [n = 0]; [MemoryError] when the
    buffer cannot be allocated; [EOFError] when the peer's bytes run
    out. *)
Definition readexactly (n : Z) : M Stream bytes := fun st =>
  if n =? 0 then (Ret [], st)
  else if heap st <? n then (Raise MemoryError, st)
  else if n <=? Z.of_nat (length (rx st))
       then (Ret (firstn (Z.to_nat n) (rx st)),
             set_rx (skipn (Z.to_nat n) (rx st)) st)
       else (Raise EOFError, set_rx [] st).

Fixpoint split_line (l : bytes) : bytes * bytes :=
  match l with
  | [] => ([], [])
  | c :: l' =>
      if c =? 10 then ([c], l')
      else let (line, rest) := split_line l' in (c :: line, rest)
  end.

(** [readline()]: up to and including the next newline, or what is left
    at EOF. *)
Definition readline : M Stream bytes := fun st =>
  let (line, rest) := split_line (rx st) in (Ret line, set_rx rest st).

Definition write (buf : bytes) : M Stream unit := fun st =>
  (Ret tt, mkStream (rx st) (out_buf st ++ buf) (wire st) (closed st) (heap st)).

Definition drain : M Stream unit := fun st =>
  (Ret tt, mkStream (rx st) [] (wire st ++ out_buf st) (closed st) (heap st)).

Definition wait_closed : M Stream unit := fun st =>
  (Ret tt, mkStream (rx st) (out_buf st) (wire st) true (heap st)).

End StreamOps.

(** ** [class WebsocketClient]

    [random_state] is the state of the [random] module: the values the
    next calls of [getrandbits] are computed from. *)

Record WebsocketClient := mkClient {
  _stream : Stream;
  open : bool;
  random_state : list Z
}.

Definition set_stream (st : Stream) (s : WebsocketClient) : WebsocketClient :=
  mkClient st (open s) (random_state s).

Definition set_open (b : bool) : M WebsocketClient unit := fun s =>
  (Ret tt, mkClient (_stream s) b (random_state s)).

(** Run a stream operation on [self._stream]. *)
Definition on_stream {A} (m : M Stream A) : M WebsocketClient A := fun s =>
  let (r, st) := m (_stream s) in (r, set_stream st s).

(** [random.getrandbits(k)] *)
Definition getrandbits (k : Z) : M WebsocketClient Z := fun s =>
  (Ret (hd 0 (random_state s) mod 2 ^ k),
   mkClient (_stream s) (open s) (tl (random_state s))).

(** [enumerate] *)
Fixpoint enumerate_from {A} (i : nat) (l : list A) : list (nat * A) :=
  match l with
  | [] => []
  | x :: l' => (i, x) :: enumerate_from (S i) l'
  end.

Definition enumerate {A} (l : list A) := enumerate_from 0 l.

(** [bytes(b ^ mask_bits[i % 4] for i, b in enumerate(data))] *)
Definition mask_payload (mask_bits data : bytes) : bytes :=
  map (fun ib => Z.lxor (snd ib) (nth (fst ib mod 4)%nat mask_bits 0))
      (enumerate data).

Definition _write_frame (opcode : Z) (data : bytes) : M WebsocketClient unit :=
  let fin := true in
  let mask := true in
  let length_ := Z.of_nat (length data) in
  let byte1 := Z.lor (if fin then 0x80 else 0) opcode in
  let byte2 := if mask then 0x80 else 0 in
  (if length_ <? 126 then
     on_stream (StreamOps.write
       (Struct.pack_B byte1 ++ Struct.pack_B (Z.lor byte2 length_)))
   else if length_ <? Z.shiftl 1 16 then
     on_stream (StreamOps.write
       (Struct.pack_B byte1 ++ Struct.pack_B (Z.lor byte2 126)
        ++ Struct.pack_H length_))
   else if length_ <? Z.shiftl 1 64 then
     on_stream (StreamOps.write
       (Struct.pack_B byte1 ++ Struct.pack_B (Z.lor byte2 127)
        ++ Struct.pack_Q length_))
   else raise (ValueError [])) ;;;
  (if mask then
     r <- getrandbits 32 ;;
     let mask_bits := Struct.pack_I r in
     on_stream (StreamOps.write mask_bits) ;;;
     on_stream (StreamOps.write (mask_payload mask_bits data))
   else
     on_stream (StreamOps.write data)).

(** ** Byte-string helpers used by [connect] *)

Fixpoint startswith (l prefix : bytes) : bool :=
  match prefix, l with
  | [], _ => true
  | p :: prefix', c :: l' => (c =? p) && startswith l' prefix'
  | _ :: _, [] => false
  end.

Definition bytes_eqb (a b : bytes) : bool :=
  (length a =? length b)%nat && startswith a b.

(** [b[:-k]] *)
Definition drop_last (k : nat) (b : bytes) : bytes :=
  firstn (length b - k) b.

(** ['%d' % n] *)
Definition fmt_d (n : Z) : bytes :=
  bytes_of_string (NilZero.string_of_int (Z.to_int n)).

Definition CRLF : bytes := [13; 10].

(** The groups of a successful [re.match] on the url: scheme, host, port
    (already through [int]) and path. *)
Record url_match := mkMatch {
  group1 : bytes;
  group2 : bytes;
  group3 : option Z;
  group4 : option bytes
}.

(** [n] values of [random.getrandbits(k)] *)
Fixpoint getrandbits_n (n : nat) (k : Z) (rs : list Z) : bytes * list Z :=
  match n with
  | O => ([], rs)
  | S n' =>
      let (l, rs') := getrandbits_n n' k (tl rs) in
      (hd 0 rs mod 2 ^ k :: l, rs')
  end.

Section Platform.

(** The platform's UTF-8 codec ([str.encode], [bytearray.decode]) and
    [binascii.b2a_base64]. *)
Variable utf8_encode : pystr -> bytes.
Variable utf8_decode : bytes -> option pystr.
Variable b2a_base64 : bytes -> bytes.

Definition close (code : Z) (reason : pystr) : M WebsocketClient unit :=
  fun s =>
    if negb (open s) then (Ret tt, s)
    else
      (let buf := Struct.pack_H code ++ utf8_encode reason in
       _write_frame OP_CLOSE buf ;;;
       set_open false) s.

Definition wait_closed : M WebsocketClient unit :=
  on_stream StreamOps.drain ;;;
  on_stream StreamOps.wait_closed.

(** A decoded frame: [(fin, opcode, data)]; [data] is [None] when the
    payload could not be allocated. *)
Definition frame : Type := bool * Z * option bytes.

(** [_read_frame], the header: the two mandatory bytes, the extended
    length and the mask key.  Gives [(fin, opcode, mask, length,
    mask_bits)]. *)
Definition _read_frame_header
  : M WebsocketClient (bool * Z * bool * Z * bytes) :=
  hdr <- on_stream (StreamOps.readexactly 2) ;;
  let byte1 := nth 0 hdr 0 in
  let byte2 := nth 1 hdr 0 in
  let fin := negb (Z.land byte1 0x80 =? 0) in
  let opcode := Z.land byte1 0x0f in
  let mask := negb (Z.land byte2 (Z.shiftl 1 7) =? 0) in
  let length0 := Z.land byte2 0x7f in
  length_ <-
    (if length0 =? 126 then
       b <- on_stream (StreamOps.readexactly 2) ;; ret (Struct.unpack_be b)
     else if length0 =? 127 then
       b <- on_stream (StreamOps.readexactly 8) ;; ret (Struct.unpack_be b)
     else ret length0) ;;
  mask_bits <-
    (if mask then on_stream (StreamOps.readexactly 4) else ret []) ;;
  ret (fin, opcode, mask, length_, mask_bits).

(** [_read_frame]: the header, then the payload inside the
    [try ... except MemoryError]. *)
Definition _read_frame : M WebsocketClient frame :=
  h <- _read_frame_header ;;
  let '(fin, opcode, mask, length_, mask_bits) := h in
  fun s =>
    match on_stream (StreamOps.readexactly length_) s with
    | (Raise MemoryError, s1) =>
        (close CLOSE_TOO_BIG [] ;;;
         on_stream StreamOps.drain ;;;
         ret (true, OP_CLOSE, None)) s1
    | (Raise e, s1) => (Raise e, s1)
    | (Ret data, s1) =>
        let data := if mask then mask_payload mask_bits data else data in
        (Ret (fin, opcode, Some data), s1)
    end.

Definition send (buf : pyobj) : M WebsocketClient unit := fun s =>
  if negb (open s) then (Ret tt, s)
  else
    match buf with
    | PyStr t =>
        (_write_frame OP_TEXT (utf8_encode t) ;;;
         on_stream StreamOps.drain) s
    | PyBytes b =>
        (_write_frame OP_BYTES b ;;;
         on_stream StreamOps.drain) s
    | _ => (Raise TypeError, s)
    end.

(** What [recv] returns: [None], a [str] or a [bytearray]. *)
Inductive recv_value :=
| RNone
| RStr (t : pystr)
| RByteArray (b : bytes).

(** [opcode == OP_X], where [opcode] may be [None]. *)
Definition op_eq (opcode : option Z) (c : Z) : bool :=
  match opcode with
  | Some z => z =? c
  | None => false
  end.

Definition pyval_of_opcode (opcode : option Z) : pyval :=
  match opcode with
  | Some z => VInt z
  | None => VNone
  end.

(** The [while self.open] loop of [recv], with its two locals; [None]
    when [fuel] iterations were not enough. *)
Fixpoint recv_loop (fuel : nat) (popcode : option Z) (buf : bytes)
         (s : WebsocketClient) : option (result recv_value * WebsocketClient) :=
  if negb (open s) then Some (Ret RNone, s)
  else
    match fuel with
    | O => None
    | S fuel' =>
        match _read_frame s with
        | (Raise EOFError, s1) => Some ((set_open false ;;; ret RNone) s1)
        | (Raise e, s1) => Some (Raise e, s1)
        | (Ret (fin, opcode0, data), s1) =>
            let opcode := if opcode0 =? OP_CONT then popcode else Some opcode0 in
            let buf := if opcode0 =? OP_CONT then buf else [] in
            let popcode := if opcode0 =? OP_CONT then popcode else Some opcode0 in
            if op_eq opcode OP_TEXT || op_eq opcode OP_BYTES then
              match data with
              | None => Some (Raise TypeError, s1)
              | Some d =>
                  let buf := buf ++ d in
                  if fin then
                    if op_eq opcode OP_TEXT then
                      match utf8_decode buf with
                      | Some t => Some (Ret (RStr t), s1)
                      | None => Some (Raise UnicodeError, s1)
                      end
                    else Some (Ret (RByteArray buf), s1)
                  else recv_loop fuel' popcode buf s1
              end
            else if op_eq opcode OP_CLOSE then
              Some ((close CLOSE_OK [] ;;; wait_closed ;;; ret RNone) s1)
            else if op_eq opcode OP_PONG then
              recv_loop fuel' popcode buf s1
            else if op_eq opcode OP_PING then
              match data with
              | None => Some (Raise TypeError, s1)
              | Some d =>
                  match (_write_frame OP_PONG d ;;;
                         on_stream StreamOps.drain) s1 with
                  | (Raise e, s2) => Some (Raise e, s2)
                  | (Ret _, s2) => recv_loop fuel' popcode buf s2
                  end
              end
            else Some (Raise (ValueError [pyval_of_opcode opcode]), s1)
        end
    end.

(** Every frame read takes at least its two header bytes, so the loop
    makes at most one iteration per byte the peer sent, and one more. *)
Definition recv (s : WebsocketClient)
  : option (result recv_value * WebsocketClient) :=
  recv_loop (S (length (rx (_stream s)))) None [] s.

(** *** [connect]

    [re.match] and [_open_connection] are the platform's: [connect]
    takes the match object (or [None]) and the stream the connection
    gives.  The result comes with the stream as [connect] leaves it. *)

Definition send_header (line : bytes) : M Stream unit :=
  StreamOps.write (line ++ CRLF).

(** The loop that skips the response headers; [None] when [fuel]
    iterations were not enough. *)
Fixpoint skip_headers (fuel : nat) (header : bytes) (st : Stream)
  : option (result unit * Stream) :=
  match header with
  | [] => Some (Ret tt, st)
  | _ :: _ =>
      match fuel with
      | O => None
      | S fuel' =>
          match StreamOps.readline st with
          | (Raise e, st1) => Some (Raise e, st1)
          | (Ret line, st1) =>
              if bytes_eqb line CRLF then Some (Ret tt, st1)
              else skip_headers fuel' line st1
          end
      end
  end.

(** The request: the nine [send_header] calls. *)
Definition send_request (path : option bytes) (host : bytes) (port : Z)
           (key url : bytes) (token : option bytes) : M Stream unit :=
  send_header (bytes_of_string "GET "
               ++ match path with
                  | Some (c :: p) => c :: p
                  | _ => bytes_of_string "/"
                  end
               ++ bytes_of_string " HTTP/1.1") ;;;
  send_header (bytes_of_string "Host: " ++ host
               ++ bytes_of_string ":" ++ fmt_d port) ;;;
  send_header (bytes_of_string "Connection: Upgrade") ;;;
  send_header (bytes_of_string "Upgrade: websocket") ;;;
  send_header (bytes_of_string "Sec-WebSocket-Key: " ++ key) ;;;
  send_header (bytes_of_string "Sec-WebSocket-Version: 13") ;;;
  send_header (bytes_of_string "Origin: " ++ url) ;;;
  match token with
  | Some (c :: t) =>
      send_header (bytes_of_string "wake-on-mcu-token: " ++ c :: t)
  | _ => ret tt
  end ;;;
  send_header [].

Definition connect (m : option url_match) (url : bytes)
           (token : option bytes) (stream : Stream) (rnd : list Z)
  : option (result WebsocketClient * Stream) :=
  match m with
  | None =>
      Some (Raise (ValueError [VBytes (bytes_of_string "Invalid url " ++ url)]),
            stream)
  | Some g =>
      let protocol := group1 g in
      if negb (bytes_eqb protocol (bytes_of_string "ws")
               || bytes_eqb protocol (bytes_of_string "wss"))
      then Some (Raise (ValueError
                          [VBytes (bytes_of_string "Invalid scheme " ++ protocol)]),
                 stream)
      else
        let port :=
          match group3 g with
          | None => if bytes_eqb protocol (bytes_of_string "ws") then 80 else 443
          | Some p => p
          end in
        let host := group2 g in
        let path := group4 g in
        let (rand16, rnd') := getrandbits_n 16 8 rnd in
        let key := drop_last 1 (b2a_base64 rand16) in
        match (send_request path host port key url token ;;;
               StreamOps.drain ;;;
               line <- StreamOps.readline ;;
               ret (drop_last 2 line)) stream with
        | (Raise e, st) => Some (Raise e, st)
        | (Ret header, st) =>
            if negb (startswith header (bytes_of_string "HTTP/1.1 101 "))
            then Some (Raise (Exception_ "Invalid protocol header"), st)
            else
              match skip_headers (S (length (rx st))) header st with
              | None => None
              | Some (Raise e, st') => Some (Raise e, st')
              | Some (Ret _, st') => Some (Ret (mkClient st' true rnd'), st')
              end
        end
  end.

End Platform.

(** ** Observing what a session wrote

    The bytes a method appended to the stream's write buffer, and a peer
    that reads bytes back with the same frame reader. *)

Definition with_rx (r : bytes) (s : WebsocketClient) : WebsocketClient :=
  set_stream (set_rx r (_stream s)) s.

Definition written (s s' : WebsocketClient) : bytes :=
  skipn (length (out_buf (_stream s))) (out_buf (_stream s')).

Definition peer (b : bytes) : WebsocketClient :=
  mkClient (mkStream b [] [] false (Z.max 8 (Z.of_nat (length b)))) true [].

Definition decode_wire (utf8_encode : pystr -> bytes) (b : bytes)
  : result frame * bytes :=
  let (r, p) := _read_frame utf8_encode (peer b) in (r, rx (_stream p)).

(** The two mandatory bytes and the extended length of a masked final
    frame. *)
Definition header_bytes (opcode len : Z) : bytes :=
  if len <? 126 then [Z.lor 128 opcode mod 256; Z.lor 128 len mod 256]
  else if len <? 65536 then
    [Z.lor 128 opcode mod 256; Z.lor 128 126 mod 256] ++ Struct.pack_H len
  else
    [Z.lor 128 opcode mod 256; Z.lor 128 127 mod 256] ++ Struct.pack_Q len.

Definition mask_key (s : WebsocketClient) : bytes :=
  Struct.pack_I (hd 0 (random_state s) mod 2 ^ 32).

Definition frame_bytes (opcode : Z) (key data : bytes) : bytes :=
  header_bytes opcode (Z.of_nat (length data)) ++ key ++ mask_payload key data.

(** A codec for the examples: UTF-8 restricted to ASCII. *)
Definition ascii_encode (t : pystr) : bytes := t.

Definition ascii_decode (b : bytes) : option pystr :=
  if forallb (fun c => (0 <=? c) && (c <? 128)) b then Some b else None.

(** [s1] is [s] but for the bytes still to read. *)
Definition same_session (s s1 : WebsocketClient) : Prop :=
  s1 = with_rx (rx (_stream s1)) s.

(** Base64 with the trailing newline, as [binascii.b2a_base64] gives it;
    for the examples. *)
Definition b64_char (v : Z) : Z :=
  nth (Z.to_nat v)
      (bytes_of_string
         "ABCDEFGHIJKLMNOPQRSTUVWXYZabcdefghijklmnopqrstuvwxyz0123456789+/")
      61.

Fixpoint b64_groups (l : bytes) : bytes :=
  match l with
  | [] => []
  | [a] => [b64_char (a / 4); b64_char (a mod 4 * 16); 61; 61]
  | [a; b] =>
      [b64_char (a / 4); b64_char (a mod 4 * 16 + b / 16);
       b64_char (b mod 16 * 4); 61]
  | a :: b :: c :: r =>
      b64_char (a / 4) :: b64_char (a mod 4 * 16 + b / 16)
      :: b64_char (b mod 16 * 4 + c / 64) :: b64_char (c mod 64)
      :: b64_groups r
  end.

Definition base64_line (l : bytes) : bytes := b64_groups l ++ [10].

(** The status line as [connect] looks at it: the first line of the
    response without its last two bytes. *)
Definition status_line (stream : Stream) : bytes :=
  drop_last 2 (fst (StreamOps.split_line (rx stream))).

(** An open session for the examples, with the given bytes to read. *)
Definition session_on (rxb : bytes) : WebsocketClient :=
  mkClient (mkStream rxb [] [] false 4096) true [0x01020304; 0x0a0b0c0d].

(** ** Helpers for the further properties *)

(** The opcodes [recv] has a branch for. *)
Definition known_opcode (o : Z) : bool :=
  existsb (Z.eqb o) [OP_CONT; OP_TEXT; OP_BYTES; OP_CLOSE; OP_PING; OP_PONG].

(** A list of integers that is a [bytes] value. *)
Definition all_bytes (l : bytes) : bool :=
  forallb (fun b => (0 <=? b) && (b <? 256)) l.

(** A computation that only reads from the stream. *)
Definition reads_only {A} (m : M WebsocketClient A) : Prop :=
  forall s r s1,
    m s = (r, s1) ->
    same_session s s1
    /\ (length (rx (_stream s1)) <= length (rx (_stream s)))%nat.

(** The frames ahead of [s] are CONTINUATION frames that are not final,
    carrying [ps] in this order, then a final one carrying [last]; reading
    them leaves [s']. *)
Fixpoint continuation_frames (enc : pystr -> bytes) (s : WebsocketClient)
         (ps : list bytes) (last : bytes) (s' : WebsocketClient) : Prop :=
  match ps with
  | [] => _read_frame enc s = (Ret (true, OP_CONT, Some last), s')
  | p :: ps' =>
      exists s1,
        _read_frame enc s = (Ret (false, OP_CONT, Some p), s1)
        /\ continuation_frames enc s1 ps' last s'
  end.

(** Lines of a header block, from their contents without the newline. *)
Definition no_newline (b : bytes) : bool :=
  forallb (fun c => negb (c =? 10)) b.

Definition header_lines (bodies : list bytes) : bytes :=
  flat_map (fun b => b ++ [10]) bodies.

(** A header line that is not the blank line ending the block. *)
Definition header_body (b : bytes) : bool :=
  no_newline b && negb (bytes_eqb (b ++ [10]) CRLF).

(** What follows the header lines: the blank line and then [rest], or
    the end of the input. *)
Definition block_end (ending : option bytes) : bytes :=
  match ending with
  | Some rest => CRLF ++ rest
  | None => []
  end.

Definition after_block (ending : option bytes) : bytes :=
  match ending with
  | Some rest => rest
  | None => []
  end.

(** * Properties *)

(** ** Arithmetic of the codec *)

Lemma fold_pack_be (n : nat) (x acc : Z) :
  fold_left (fun a v => a * 256 + v) (Struct.pack_be n x) acc
  = acc * 256 ^ Z.of_nat n + x mod 256 ^ Z.of_nat n.
Proof.
  revert acc. induction n as [|k IH]; intros acc.
  - simpl. rewrite Z.mod_1_r. lia.
  - cbn [Struct.pack_be fold_left]. rewrite IH.
    rewrite Z.shiftr_div_pow2 by lia.
    replace (2 ^ (8 * Z.of_nat k)) with (256 ^ Z.of_nat k)
      by (rewrite Z.pow_mul_r by lia; reflexivity).
    rewrite Nat2Z.inj_succ, Z.pow_succ_r by lia.
    assert (Hk : 0 < 256 ^ Z.of_nat k) by (apply Z.pow_pos_nonneg; lia).
    rewrite (Z.mul_comm 256 (256 ^ Z.of_nat k)).
    rewrite (Z.rem_mul_r x (256 ^ Z.of_nat k) 256) by lia.
    lia.
Qed.

Lemma unpack_pack_be (n : nat) (x : Z) :
  0 <= x < 256 ^ Z.of_nat n ->
  Struct.unpack_be (Struct.pack_be n x) = x.
Proof.
  intros Hx. unfold Struct.unpack_be. rewrite fold_pack_be.
  rewrite Z.mod_small by lia. lia.
Qed.

Lemma pack_be_length (n : nat) (x : Z) : length (Struct.pack_be n x) = n.
Proof. induction n; simpl; congruence. Qed.

(** A bounded check by evaluation. *)
Lemma Z_below_forallb (f : Z -> bool) (n : nat) :
  forallb f (map Z.of_nat (seq 0 n)) = true ->
  forall x, 0 <= x < Z.of_nat n -> f x = true.
Proof.
  intros H x Hx. rewrite forallb_forall in H. apply H.
  apply in_map_iff. exists (Z.to_nat x). split; [lia|].
  apply in_seq. lia.
Qed.

Lemma byte1_fields (opcode : Z) :
  0 <= opcode < 16 ->
  Z.lor 128 opcode mod 256 = Z.lor 128 opcode
  /\ (Z.land (Z.lor 128 opcode) 128 =? 0) = false
  /\ Z.land (Z.lor 128 opcode) 15 = opcode.
Proof.
  intros H.
  pose proof (Z_below_forallb
    (fun o => (Z.lor 128 o mod 256 =? Z.lor 128 o)
              && negb (Z.land (Z.lor 128 o) 128 =? 0)
              && (Z.land (Z.lor 128 o) 15 =? o)) 16 eq_refl opcode H) as E.
  cbv beta in E. apply andb_prop in E as [E E3]. apply andb_prop in E as [E1 E2].
  apply Z.eqb_eq in E1, E3. apply negb_true_iff in E2. auto.
Qed.

Lemma byte2_fields (l : Z) :
  0 <= l < 128 ->
  Z.lor 128 l mod 256 = Z.lor 128 l
  /\ (Z.land (Z.lor 128 l) (Z.shiftl 1 7) =? 0) = false
  /\ Z.land (Z.lor 128 l) 127 = l.
Proof.
  intros H.
  pose proof (Z_below_forallb
    (fun o => (Z.lor 128 o mod 256 =? Z.lor 128 o)
              && negb (Z.land (Z.lor 128 o) (Z.shiftl 1 7) =? 0)
              && (Z.land (Z.lor 128 o) 127 =? o)) 128 eq_refl l H) as E.
  cbv beta in E. apply andb_prop in E as [E E3]. apply andb_prop in E as [E1 E2].
  apply Z.eqb_eq in E1, E3. apply negb_true_iff in E2. auto.
Qed.

(** ** Masking *)

Lemma enumerate_from_map {A B} (f : A -> B) (i : nat) (l : list A) :
  enumerate_from i (map f l)
  = map (fun ib => (fst ib, f (snd ib))) (enumerate_from i l).
Proof.
  revert i. induction l as [|x l IH]; intros i; simpl; [reflexivity|].
  now rewrite IH.
Qed.

Lemma mask_from_involutive (k : bytes) (i : nat) (data : bytes) :
  map (fun ib => Z.lxor (snd ib) (nth (fst ib mod 4)%nat k 0))
      (enumerate_from i
         (map (fun ib => Z.lxor (snd ib) (nth (fst ib mod 4)%nat k 0))
              (enumerate_from i data)))
  = data.
Proof.
  revert i. induction data as [|b data IH]; intros i; [reflexivity|].
  cbn [enumerate_from map fst snd]. rewrite IH. f_equal.
  rewrite Z.lxor_assoc, Z.lxor_nilpotent, Z.lxor_0_r. reflexivity.
Qed.

Lemma mask_payload_involutive (k data : bytes) :
  mask_payload k (mask_payload k data) = data.
Proof. apply mask_from_involutive. Qed.

Lemma enumerate_from_length {A} (i : nat) (l : list A) :
  length (enumerate_from i l) = length l.
Proof. revert i; induction l; intros; simpl; auto. Qed.

Lemma mask_payload_length (k data : bytes) :
  length (mask_payload k data) = length data.
Proof.
  unfold mask_payload, enumerate. now rewrite length_map, enumerate_from_length.
Qed.

(** ** Reading from the stream *)

Lemma set_rx_same (st : Stream) : set_rx (rx st) st = st.
Proof. now destruct st. Qed.

Lemma with_rx_same (s : WebsocketClient) : with_rx (rx (_stream s)) s = s.
Proof. destruct s as [st o r]. unfold with_rx, set_stream. cbn. now rewrite set_rx_same. Qed.

Lemma readexactly_app (st : Stream) (a b : bytes) (n : Z) :
  rx st = a ++ b -> Z.of_nat (length a) = n -> n <= heap st ->
  StreamOps.readexactly n st = (Ret a, set_rx b st).
Proof.
  intros Hrx Hn Hheap. unfold StreamOps.readexactly.
  destruct (Z.eqb_spec n 0) as [E|E].
  - assert (a = []) by (destruct a; [reflexivity | simpl in Hn; lia]). subst a.
    simpl in Hrx. now rewrite <- Hrx, set_rx_same.
  - destruct (Z.ltb_spec (heap st) n); [lia|].
    rewrite Hrx, length_app.
    destruct (Z.leb_spec n (Z.of_nat (length a + length b))); [|lia].
    replace (Z.to_nat n) with (length a + 0)%nat by lia.
    rewrite firstn_app_2, skipn_app, Nat.add_0_r, skipn_all. simpl.
    replace (length a - length a)%nat with 0%nat by lia.
    now rewrite app_nil_r.
Qed.

Lemma on_stream_read (s : WebsocketClient) (a b : bytes) (n : Z) :
  rx (_stream s) = a ++ b -> Z.of_nat (length a) = n -> n <= heap (_stream s) ->
  on_stream (StreamOps.readexactly n) s = (Ret a, with_rx b s).
Proof.
  intros. unfold on_stream. now rewrite (readexactly_app _ a b).
Qed.

Lemma read_bind {B} (s : WebsocketClient) (a b : bytes) (n : Z)
      (k : bytes -> M WebsocketClient B) :
  rx (_stream s) = a ++ b -> Z.of_nat (length a) = n -> n <= heap (_stream s) ->
  bind (on_stream (StreamOps.readexactly n)) k s = k a (with_rx b s).
Proof.
  intros. unfold bind. now rewrite (on_stream_read s a b).
Qed.

(** ** What [_write_frame] writes *)

Lemma write_frame_ok (opcode : Z) (data : bytes) (s : WebsocketClient) :
  Z.of_nat (length data) < 2 ^ 64 ->
  _write_frame opcode data s
  = (Ret tt,
     mkClient (mkStream (rx (_stream s))
                        (out_buf (_stream s)
                         ++ frame_bytes opcode (mask_key s) data)
                        (wire (_stream s)) (closed (_stream s))
                        (heap (_stream s)))
              (open s) (tl (random_state s))).
Proof.
  intros HL. unfold _write_frame, frame_bytes, header_bytes, mask_key.
  change (Z.shiftl 1 16) with 65536. change (Z.shiftl 1 64) with (2 ^ 64).
  destruct (Z.ltb_spec (Z.of_nat (length data)) 126);
    [|destruct (Z.ltb_spec (Z.of_nat (length data)) 65536);
      [|destruct (Z.ltb_spec (Z.of_nat (length data)) (2 ^ 64)); [|lia]]];
    unfold bind, on_stream, StreamOps.write, getrandbits, set_stream; cbn;
    repeat rewrite <- app_assoc; reflexivity.
Qed.

Lemma write_frame_too_long (opcode : Z) (data : bytes) (s : WebsocketClient) :
  2 ^ 64 <= Z.of_nat (length data) ->
  _write_frame opcode data s = (Raise (ValueError []), s).
Proof.
  intros HL. unfold _write_frame.
  change (Z.shiftl 1 16) with 65536. change (Z.shiftl 1 64) with (2 ^ 64).
  destruct (Z.ltb_spec (Z.of_nat (length data)) 126); [lia|].
  destruct (Z.ltb_spec (Z.of_nat (length data)) 65536); [lia|].
  destruct (Z.ltb_spec (Z.of_nat (length data)) (2 ^ 64)); [lia|].
  reflexivity.
Qed.

(** ** Reading back what [_write_frame] wrote *)

Section Reader.

Variable utf8_encode : pystr -> bytes.

Lemma read_header_of_written (opcode len : Z) (key rest : bytes)
      (r : WebsocketClient) :
  0 <= opcode < 16 -> 0 <= len < 2 ^ 64 ->
  length key = 4%nat ->
  rx (_stream r) = header_bytes opcode len ++ key ++ rest ->
  8 <= heap (_stream r) ->
  _read_frame_header r = (Ret (true, opcode, true, len, key), with_rx rest r).
Proof.
  intros Hop Hlen Hkey Hrx Hheap.
  destruct (byte1_fields opcode Hop) as (B1 & B2 & B3).
  unfold _read_frame_header, header_bytes, Struct.pack_H, Struct.pack_Q in *.
  destruct (Z.ltb_spec len 126) as [H1|H1];
    [|destruct (Z.ltb_spec len 65536) as [H2|H2]].
  - destruct (byte2_fields len ltac:(lia)) as (C1 & C2 & C3).
    rewrite (read_bind r [Z.lor 128 opcode mod 256; Z.lor 128 len mod 256]
               (key ++ rest) 2) by (auto; lia).
    cbn [nth]. rewrite B1, C1, B2, C2, B3, C3.
    destruct (Z.eqb_spec len 126); [lia|].
    destruct (Z.eqb_spec len 127); [lia|].
    cbn [negb]. unfold bind at 1, ret at 1.
    rewrite (read_bind _ key rest 4) by (cbn; auto; lia).
    reflexivity.
  - destruct (byte2_fields 126 ltac:(lia)) as (C1 & C2 & C3).
    rewrite <- app_assoc in Hrx.
    rewrite (read_bind r [Z.lor 128 opcode mod 256; Z.lor 128 126 mod 256]
               (Struct.pack_be 2 len ++ key ++ rest) 2) by (auto; lia).
    cbn [nth]. rewrite B1, C1, B2, C2, B3, C3.
    cbn [Z.eqb Pos.eqb negb]. unfold bind at 1.
    rewrite (read_bind _ (Struct.pack_be 2 len) (key ++ rest) 2)
      by (cbn; auto; lia).
    unfold ret at 1. rewrite unpack_pack_be by (cbn; lia).
    rewrite (read_bind _ key rest 4) by (cbn; auto; lia).
    reflexivity.
  - destruct (byte2_fields 127 ltac:(lia)) as (C1 & C2 & C3).
    rewrite <- app_assoc in Hrx.
    rewrite (read_bind r [Z.lor 128 opcode mod 256; Z.lor 128 127 mod 256]
               (Struct.pack_be 8 len ++ key ++ rest) 2) by (auto; lia).
    cbn [nth]. rewrite B1, C1, B2, C2, B3, C3.
    cbn [Z.eqb Pos.eqb negb]. unfold bind at 1.
    rewrite (read_bind _ (Struct.pack_be 8 len) (key ++ rest) 8)
      by (cbn; auto; lia).
    unfold ret at 1.
    rewrite unpack_pack_be by (change (256 ^ Z.of_nat 8) with (2 ^ 64); lia).
    rewrite (read_bind _ key rest 4) by (cbn; auto; lia).
    reflexivity.
Qed.

Lemma read_frame_of_written (opcode : Z) (key data rest : bytes)
      (r : WebsocketClient) :
  0 <= opcode < 16 -> Z.of_nat (length data) < 2 ^ 64 ->
  length key = 4%nat ->
  rx (_stream r) = frame_bytes opcode key data ++ rest ->
  8 <= heap (_stream r) -> Z.of_nat (length data) <= heap (_stream r) ->
  _read_frame utf8_encode r = (Ret (true, opcode, Some data), with_rx rest r).
Proof.
  intros Hop Hlen Hkey Hrx Hheap Hfit.
  unfold frame_bytes in Hrx. rewrite <- !app_assoc in Hrx.
  unfold _read_frame. unfold bind at 1.
  rewrite (read_header_of_written opcode (Z.of_nat (length data)) key
             (mask_payload key data ++ rest)) by (auto; lia).
  rewrite (on_stream_read _ (mask_payload key data) rest)
    by (cbn; auto; rewrite ?mask_payload_length; auto).
  now rewrite mask_payload_involutive.
Qed.

Lemma decode_wire_of_written (opcode : Z) (key data : bytes) :
  0 <= opcode < 16 -> Z.of_nat (length data) < 2 ^ 64 ->
  length key = 4%nat ->
  decode_wire utf8_encode (frame_bytes opcode key data)
  = (Ret (true, opcode, Some data), []).
Proof.
  intros Hop Hlen Hkey. unfold decode_wire.
  rewrite (read_frame_of_written opcode key data []); auto.
  - now rewrite app_nil_r.
  - cbn. lia.
  - cbn. unfold frame_bytes. rewrite !length_app, mask_payload_length. lia.
Qed.

End Reader.

Lemma written_app (s s' : WebsocketClient) (w : bytes) :
  out_buf (_stream s') = out_buf (_stream s) ++ w -> written s s' = w.
Proof.
  intros H. unfold written. rewrite H, skipn_app, skipn_all, Nat.sub_diag.
  reflexivity.
Qed.

Lemma mask_key_length (s : WebsocketClient) : length (mask_key s) = 4%nat.
Proof. reflexivity. Qed.

Lemma header_bytes_length_field (opcode len : Z) (tail : bytes) :
  0 <= len < 2 ^ 64 ->
  let w := header_bytes opcode len ++ tail in
  (len < 126 ->
   Z.land (nth 1 w 0) 0x7f = len /\ skipn 2 w = tail)
  /\ (126 <= len < 2 ^ 16 ->
      Z.land (nth 1 w 0) 0x7f = 126
      /\ Struct.unpack_be (firstn 2 (skipn 2 w)) = len
      /\ skipn 4 w = tail)
  /\ (2 ^ 16 <= len ->
      Z.land (nth 1 w 0) 0x7f = 127
      /\ Struct.unpack_be (firstn 8 (skipn 2 w)) = len
      /\ skipn 10 w = tail).
Proof.
  intros Hlen w. subst w. unfold header_bytes.
  change (2 ^ 16) with 65536.
  destruct (Z.ltb_spec len 126) as [H1|H1];
    [|destruct (Z.ltb_spec len 65536) as [H2|H2]];
    (split; [|split]); intros H; try lia.
  - destruct (byte2_fields len ltac:(lia)) as (C1 & _ & C3).
    cbn [app nth skipn]. now rewrite C1, C3.
  - unfold Struct.pack_H. cbn [app nth skipn Struct.pack_be firstn].
    split; [reflexivity|]. split; [|reflexivity].
    change [Z.shiftr len (8 * Z.of_nat 1) mod 256;
            Z.shiftr len (8 * Z.of_nat 0) mod 256]
      with (Struct.pack_be 2 len).
    apply unpack_pack_be. change (256 ^ Z.of_nat 2) with 65536. lia.
  - unfold Struct.pack_Q. cbn [app nth skipn Struct.pack_be firstn].
    split; [reflexivity|]. split; [|reflexivity].
    match goal with |- Struct.unpack_be ?l = _ =>
      change l with (Struct.pack_be 8 len) end.
    apply unpack_pack_be. change (256 ^ Z.of_nat 8) with (2 ^ 64). lia.
Qed.

(** ** The frame codec *)

(** C9. Masking is its own inverse: for every 4-byte key K and every
    payload, of any length, XOR-ing byte i with K[i mod 4] twice gives the
    payload back. *)
Theorem C9_masking_self_inverse (K data : bytes) :
  length K = 4%nat ->
  mask_payload K (mask_payload K data) = data.
Proof. intros _. apply mask_payload_involutive. Qed.

Lemma C9_masking_self_inverse_witness :
  length [0x37; 0xfa; 0x21; 0x3d] = 4%nat
  /\ mask_payload [0x37; 0xfa; 0x21; 0x3d]
       (mask_payload [0x37; 0xfa; 0x21; 0x3d] [72; 101; 108; 108; 111])
     = [72; 101; 108; 108; 111].
Proof.
  split; [reflexivity|].
  apply (C9_masking_self_inverse [0x37; 0xfa; 0x21; 0x3d]
           [72; 101; 108; 108; 111]).
  reflexivity.
Defined.

(** C1. Round trip of the frame codec: for every payload shorter than 2^64
    bytes, [_write_frame] succeeds, and [_read_frame] on the bytes it wrote
    (by any reader with memory for them, unmasking with the key in the
    frame) gives back a final frame with the same opcode and the same
    payload, leaving what follows the frame unread.  The length field is
    the literal length below 126; 126 and a 16-bit big-endian length from
    126 to 2^16 - 1; 127 and a 64-bit big-endian length from 2^16 on; the
    mask key and the payload follow it. *)
Theorem C1_frame_roundtrip (utf8_encode : pystr -> bytes)
        (opcode : Z) (data : bytes) (s : WebsocketClient) :
  0 <= opcode < 16 ->
  Z.of_nat (length data) < 2 ^ 64 ->
  exists s',
    _write_frame opcode data s = (Ret tt, s')
    /\ (forall r rest,
           rx (_stream r) = written s s' ++ rest ->
           8 <= heap (_stream r) ->
           Z.of_nat (length data) <= heap (_stream r) ->
           _read_frame utf8_encode r
           = (Ret (true, opcode, Some data), with_rx rest r))
    /\ decode_wire utf8_encode (written s s')
       = (Ret (true, opcode, Some data), [])
    /\ let w := written s s' in
       let len := Z.of_nat (length data) in
       let payload := mask_key s ++ mask_payload (mask_key s) data in
       (len < 126 ->
        Z.land (nth 1 w 0) 0x7f = len /\ skipn 2 w = payload)
       /\ (126 <= len < 2 ^ 16 ->
           Z.land (nth 1 w 0) 0x7f = 126
           /\ Struct.unpack_be (firstn 2 (skipn 2 w)) = len
           /\ skipn 4 w = payload)
       /\ (2 ^ 16 <= len ->
           Z.land (nth 1 w 0) 0x7f = 127
           /\ Struct.unpack_be (firstn 8 (skipn 2 w)) = len
           /\ skipn 10 w = payload).
Proof.
  intros Hop Hlen. eexists. split; [apply write_frame_ok; assumption|].
  rewrite (written_app s _ (frame_bytes opcode (mask_key s) data)) by reflexivity.
  split; [|split].
  - intros r rest Hrx H8 Hfit.
    apply (read_frame_of_written utf8_encode opcode (mask_key s)); auto.
  - apply decode_wire_of_written; auto.
  - unfold frame_bytes. apply header_bytes_length_field. lia.
Qed.

Lemma C1_frame_roundtrip_witness :
  let s := mkClient (mkStream [] [] [] false 4096) true [0x01020304] in
  let data := repeat 97 126 in
  0 <= OP_TEXT < 16
  /\ Z.of_nat (length data) < 2 ^ 64
  /\ exists s',
       _write_frame OP_TEXT data s = (Ret tt, s')
       /\ decode_wire ascii_encode (written s s')
          = (Ret (true, OP_TEXT, Some data), [])
       /\ Z.land (nth 1 (written s s') 0) 0x7f = 126
       /\ Struct.unpack_be (firstn 2 (skipn 2 (written s s'))) = 126.
Proof.
  intros s data.
  assert (Hop : 0 <= OP_TEXT < 16) by (unfold OP_TEXT; lia).
  assert (Hlen : Z.of_nat (length data) < 2 ^ 64) by (vm_compute; reflexivity).
  split; [exact Hop|]. split; [exact Hlen|].
  destruct (C1_frame_roundtrip ascii_encode OP_TEXT data s Hop Hlen)
    as (s' & Hw & _ & Hd & _ & H16 & _).
  exists s'. split; [exact Hw|]. split; [exact Hd|].
  assert (Hr : 126 <= Z.of_nat (length data) < 2 ^ 16) by (vm_compute; intuition discriminate).
  destruct (H16 Hr) as (F1 & F2 & _). split; [exact F1|exact F2].
Defined.

(** ** What a frame read leaves behind *)
Lemma same_session_refl (s : WebsocketClient) : same_session s s.
Proof. unfold same_session. now rewrite with_rx_same. Qed.

Lemma same_session_trans (s s1 s2 : WebsocketClient) :
  same_session s s1 -> same_session s1 s2 -> same_session s s2.
Proof.
  unfold same_session. intros H1 H2. rewrite H2 at 1. rewrite H1 at 1.
  reflexivity.
Qed.

Lemma on_stream_read_inv (n : Z) (s s1 : WebsocketClient) (r : result bytes) :
  on_stream (StreamOps.readexactly n) s = (r, s1) ->
  same_session s s1
  /\ (length (rx (_stream s1)) <= length (rx (_stream s)))%nat
  /\ match r with
     | Ret a =>
         (length (rx (_stream s1)) + length a = length (rx (_stream s)))%nat
         /\ (0 < n -> Z.of_nat (length a) = n /\ n <= heap (_stream s))
     | Raise MemoryError => s1 = s /\ heap (_stream s) < n
     | Raise _ => True
     end.
Proof.
  destruct s as [[rx0 ob w c h] o rs].
  unfold on_stream, StreamOps.readexactly, same_session, with_rx, set_stream,
    set_rx. cbn [_stream rx out_buf wire closed heap open random_state].
  intros H.
  destruct (Z.eqb_spec n 0) as [E|E].
  - inversion H; subst; clear H. cbn. repeat split; auto; lia.
  - destruct (Z.ltb_spec h n) as [Hh|Hh].
    + inversion H; subst; clear H. cbn. repeat split; auto.
    + destruct (Z.leb_spec n (Z.of_nat (length rx0))) as [Hl|Hl];
        inversion H; subst; clear H; cbn; repeat split; auto;
        rewrite ?length_skipn, ?length_firstn; try lia.
Qed.

Lemma bind_inv {S A B} (m : M S A) (k : A -> M S B) (s s2 : S) (b : B) :
  bind m k s = (Ret b, s2) ->
  exists a s1, m s = (Ret a, s1) /\ k a s1 = (Ret b, s2).
Proof.
  unfold bind. destruct (m s) as [[a|e] s1]; intros H; [eauto|discriminate].
Qed.

Lemma read_header_inv (s s1 : WebsocketClient)
      (h : bool * Z * bool * Z * bytes) :
  _read_frame_header s = (Ret h, s1) ->
  same_session s s1
  /\ (length (rx (_stream s1)) + 2 <= length (rx (_stream s)))%nat
  /\ 2 <= heap (_stream s).
Proof.
  unfold _read_frame_header. intros H.
  apply bind_inv in H as (hdr & sa & Ha & H).
  apply on_stream_read_inv in Ha as (Sa & _ & La & Na).
  specialize (Na ltac:(lia)) as (Na & Hh).
  apply bind_inv in H as (len & sb & Hb & H).
  apply bind_inv in H as (mb & sc & Hc & H).
  inversion H; subst; clear H.
  assert (Sb : same_session sa sb
               /\ (length (rx (_stream sb)) <= length (rx (_stream sa)))%nat).
  { destruct (Z.land (nth 1 hdr 0) 127 =? 126);
      [|destruct (Z.land (nth 1 hdr 0) 127 =? 127)].
    - apply bind_inv in Hb as (b & sb' & Hb & Hr). inversion Hr; subst.
      apply on_stream_read_inv in Hb as (? & ? & _). auto.
    - apply bind_inv in Hb as (b & sb' & Hb & Hr). inversion Hr; subst.
      apply on_stream_read_inv in Hb as (? & ? & _). auto.
    - inversion Hb; subst. split; [apply same_session_refl|lia]. }
  assert (Sc : same_session sb s1
               /\ (length (rx (_stream s1)) <= length (rx (_stream sb)))%nat).
  { destruct (negb (Z.land (nth 1 hdr 0) (Z.shiftl 1 7) =? 0)).
    - apply on_stream_read_inv in Hc as (? & ? & _). auto.
    - inversion Hc; subst. split; [apply same_session_refl|lia]. }
  destruct Sb as [Sb Lb], Sc as [Sc Lc].
  split; [eauto using same_session_trans|]. split; [lia|exact Hh].
Qed.

Lemma same_session_fields (s s1 : WebsocketClient) :
  same_session s s1 ->
  open s1 = open s /\ random_state s1 = random_state s
  /\ out_buf (_stream s1) = out_buf (_stream s)
  /\ wire (_stream s1) = wire (_stream s)
  /\ closed (_stream s1) = closed (_stream s)
  /\ heap (_stream s1) = heap (_stream s).
Proof. intros H. rewrite H. cbn. auto 10. Qed.

Lemma write_frame_rx (opcode : Z) (data : bytes) (s : WebsocketClient) :
  rx (_stream (snd (_write_frame opcode data s))) = rx (_stream s).
Proof.
  destruct (Z.lt_ge_cases (Z.of_nat (length data)) (2 ^ 64)) as [H|H].
  - now rewrite write_frame_ok.
  - now rewrite write_frame_too_long.
Qed.

(** ** The session: [close], [_read_frame], [recv] *)

Section Session.

Variable enc : pystr -> bytes.
Variable dec : bytes -> option pystr.

Lemma close_closed (code : Z) (reason : pystr) (s : WebsocketClient) :
  open s = false -> close enc code reason s = (Ret tt, s).
Proof. intros H. unfold close. now rewrite H. Qed.

Lemma close_open (code : Z) (reason : pystr) (s : WebsocketClient) :
  open s = true ->
  Z.of_nat (length (Struct.pack_H code ++ enc reason)) < 2 ^ 64 ->
  close enc code reason s
  = (Ret tt,
     mkClient (mkStream (rx (_stream s))
                        (out_buf (_stream s)
                         ++ frame_bytes OP_CLOSE (mask_key s)
                              (Struct.pack_H code ++ enc reason))
                        (wire (_stream s)) (closed (_stream s))
                        (heap (_stream s)))
              false (tl (random_state s))).
Proof.
  intros Ho Hl. unfold close. rewrite Ho. cbn [negb].
  unfold bind. now rewrite write_frame_ok.
Qed.

Lemma close_rx (code : Z) (reason : pystr) (s : WebsocketClient) :
  rx (_stream (snd (close enc code reason s))) = rx (_stream s).
Proof.
  unfold close. destruct (negb (open s)); [reflexivity|].
  unfold bind.
  pose proof (write_frame_rx OP_CLOSE
                (Struct.pack_H code ++ enc reason) s) as H.
  destruct (_write_frame OP_CLOSE _ s) as [[u|e] s1]; exact H.
Qed.

Lemma read_frame_inv (s s1 : WebsocketClient) (fin : bool) (opcode : Z)
      (data : option bytes) :
  _read_frame enc s = (Ret (fin, opcode, data), s1) ->
  (length (rx (_stream s1)) + 2 <= length (rx (_stream s)))%nat
  /\ match data with
     | Some _ => same_session s s1
     | None => fin = true /\ opcode = OP_CLOSE
     end.
Proof.
  unfold _read_frame. intros H.
  apply bind_inv in H as (h & sa & Ha & H).
  apply read_header_inv in Ha as (Sa & La & _).
  destruct h as [[[[fin0 op0] mask] len] mb].
  destruct (on_stream (StreamOps.readexactly len) sa) as [[d|e] sb] eqn:Hb.
  - apply on_stream_read_inv in Hb as (Sb & Lb & _).
    inversion H; subst; clear H.
    split; [lia|eauto using same_session_trans].
  - destruct e; try discriminate.
    apply on_stream_read_inv in Hb as (_ & _ & -> & _).
    apply bind_inv in H as ([] & sc & Hc & H).
    pose proof (close_rx CLOSE_TOO_BIG [] sa) as Rc. rewrite Hc in Rc.
    cbn [snd] in Rc.
    inversion H; subst; clear H. cbn. rewrite Rc. split; [lia|auto].
Qed.

Lemma recv_loop_mono (fuel : nat) :
  forall popcode buf s r,
    recv_loop enc dec fuel popcode buf s = Some r ->
    recv_loop enc dec (S fuel) popcode buf s = Some r.
Proof.
  induction fuel as [|fuel IH]; intros popcode buf s r H.
  - cbn in H. cbn [recv_loop].
    destruct (negb (open s)); [exact H|discriminate].
  - remember (S fuel) as f1 eqn:Ef.
    cbn [recv_loop]. rewrite Ef in H at 1.
    cbn [recv_loop] in H.
    repeat
      match type of H with
      | context [match ?x with _ => _ end] => destruct x eqn:?; try exact H
      end;
      try discriminate; subst f1; auto.
Qed.

Lemma recv_loop_more_fuel (fuel fuel' : nat) popcode buf s r :
  (fuel <= fuel')%nat ->
  recv_loop enc dec fuel popcode buf s = Some r ->
  recv_loop enc dec fuel' popcode buf s = Some r.
Proof.
  induction 1; auto using recv_loop_mono.
Qed.

Lemma recv_loop_step (fuel : nat) popcode buf s :
  open s = true ->
  recv_loop enc dec (S fuel) popcode buf s
  = match _read_frame enc s with
    | (Raise EOFError, s1) => Some ((set_open false ;;; ret RNone) s1)
    | (Raise e, s1) => Some (Raise e, s1)
    | (Ret (fin, opcode0, data), s1) =>
        let opcode := if opcode0 =? OP_CONT then popcode else Some opcode0 in
        let buf := if opcode0 =? OP_CONT then buf else [] in
        let popcode := if opcode0 =? OP_CONT then popcode else Some opcode0 in
        if op_eq opcode OP_TEXT || op_eq opcode OP_BYTES then
          match data with
          | None => Some (Raise TypeError, s1)
          | Some d =>
              let buf := buf ++ d in
              if fin then
                if op_eq opcode OP_TEXT then
                  match dec buf with
                  | Some t => Some (Ret (RStr t), s1)
                  | None => Some (Raise UnicodeError, s1)
                  end
                else Some (Ret (RByteArray buf), s1)
              else recv_loop enc dec fuel popcode buf s1
          end
        else if op_eq opcode OP_CLOSE then
          Some ((close enc CLOSE_OK [] ;;; wait_closed ;;; ret RNone) s1)
        else if op_eq opcode OP_PONG then
          recv_loop enc dec fuel popcode buf s1
        else if op_eq opcode OP_PING then
          match data with
          | None => Some (Raise TypeError, s1)
          | Some d =>
              match (_write_frame OP_PONG d ;;;
                     on_stream StreamOps.drain) s1 with
              | (Raise e, s2) => Some (Raise e, s2)
              | (Ret _, s2) => recv_loop enc dec fuel popcode buf s2
              end
          end
        else Some (Raise (ValueError [pyval_of_opcode opcode]), s1)
    end.
Proof. intros Ho. cbn [recv_loop]. rewrite Ho. reflexivity. Qed.

Lemma pong_rx (d : bytes) (s : WebsocketClient) :
  rx (_stream (snd ((_write_frame OP_PONG d ;;;
                     on_stream StreamOps.drain) s)))
  = rx (_stream s).
Proof.
  unfold bind. pose proof (write_frame_rx OP_PONG d s) as H.
  destruct (_write_frame OP_PONG d s) as [[u|e] s1]; exact H.
Qed.

(** [recv] always comes back: the fuel it is given is enough. *)
Lemma recv_loop_total (fuel : nat) :
  forall popcode buf s,
    (length (rx (_stream s)) < fuel)%nat ->
    exists r, recv_loop enc dec fuel popcode buf s = Some r.
Proof.
  induction fuel as [|fuel IH]; intros popcode buf s Hf; [lia|].
  destruct (open s) eqn:Ho.
  2:{ cbn [recv_loop]. rewrite Ho. cbn. eauto. }
  rewrite recv_loop_step by exact Ho.
  destruct (_read_frame enc s) as [[[[fin op] data]|e] s1] eqn:Hr.
  2:{ destruct e; eauto. }
  apply read_frame_inv in Hr as (Hl & _).
  assert (Hs1 : (length (rx (_stream s1)) < fuel)%nat) by lia.
  cbv zeta.
  repeat match goal with
         | |- exists r, (if ?c then _ else _) = Some r => destruct c
         | |- exists r, match ?x with _ => _ end = _ => destruct x eqn:?
         end; eauto.
  apply IH.
  match goal with
  | H : bind (_write_frame OP_PONG ?d) _ s1 = (Ret _, _) |- _ =>
      pose proof (pong_rx d s1) as P; rewrite H in P; cbn [snd] in P
  end.
  rewrite P. lia.
Qed.

(** X19. On every input, a finite run of bytes and then the end of the
    stream, [recv] comes back: each turn of its loop reads at least the two
    header bytes of a frame, so the loop cannot go on for ever. *)
Theorem recv_total (s : WebsocketClient) :
  exists r, recv enc dec s = Some r.
Proof. apply recv_loop_total. lia. Qed.

End Session.

(** ** Reassembly *)

Section Reassembly.

Variable enc : pystr -> bytes.
Variable dec : bytes -> option pystr.

(** C2. Fragmented reassembly: when [recv] decodes a TEXT frame with
    fin = false carrying p1, then a CONTINUATION frame with fin = false
    carrying p2, then a CONTINUATION frame with fin = true carrying p3, it
    returns after the third frame with exactly one message, the text that
    p1 ++ p2 ++ p3 decodes to (and it raises the decoder's error when
    p1 ++ p2 ++ p3 is not UTF-8). *)
Theorem C2_fragmented_text_reassembly
        (s0 s1 s2 s3 : WebsocketClient) (p1 p2 p3 : bytes) :
  open s0 = true ->
  _read_frame enc s0 = (Ret (false, OP_TEXT, Some p1), s1) ->
  _read_frame enc s1 = (Ret (false, OP_CONT, Some p2), s2) ->
  _read_frame enc s2 = (Ret (true, OP_CONT, Some p3), s3) ->
  (forall t, dec (p1 ++ p2 ++ p3) = Some t ->
             recv enc dec s0 = Some (Ret (RStr t), s3))
  /\ (dec (p1 ++ p2 ++ p3) = None ->
      recv enc dec s0 = Some (Raise UnicodeError, s3)).
Proof.
  intros Ho H1 H2 H3.
  destruct (read_frame_inv enc _ _ _ _ _ H1) as (L1 & S1).
  destruct (read_frame_inv enc _ _ _ _ _ H2) as (L2 & S2).
  destruct (read_frame_inv enc _ _ _ _ _ H3) as (L3 & _).
  apply same_session_fields in S1 as (O1 & _).
  apply same_session_fields in S2 as (O2 & _).
  assert (E : recv_loop enc dec 3 None [] s0
              = Some (match dec (p1 ++ p2 ++ p3) with
                      | Some t => Ret (RStr t)
                      | None => Raise UnicodeError
                      end, s3)).
  { rewrite recv_loop_step, H1 by exact Ho. cbn -[recv_loop].
    rewrite recv_loop_step, H2 by congruence. cbn -[recv_loop].
    rewrite recv_loop_step, H3 by congruence. cbn -[recv_loop].
    rewrite <- app_assoc. now destruct (dec (p1 ++ p2 ++ p3)). }
  assert (F : recv enc dec s0
              = Some (match dec (p1 ++ p2 ++ p3) with
                      | Some t => Ret (RStr t)
                      | None => Raise UnicodeError
                      end, s3)).
  { unfold recv. apply (recv_loop_more_fuel enc dec 3); [lia|exact E]. }
  split; [intros t Ht|intros Ht]; rewrite F, Ht; reflexivity.
Qed.

(** C10. A CONTINUATION frame first: when the first frame a [recv] call
    decodes is a CONTINUATION frame, the opcode it inherits is the initial
    [None], no branch of the dispatch takes it, and [recv] raises
    [ValueError(None)]: no message is returned and the frame is not
    skipped. *)
Theorem C10_continuation_first_raises
        (s s1 : WebsocketClient) (fin : bool) (data : option bytes) :
  open s = true ->
  _read_frame enc s = (Ret (fin, OP_CONT, data), s1) ->
  recv enc dec s = Some (Raise (ValueError [VNone]), s1).
Proof.
  intros Ho H. unfold recv. rewrite recv_loop_step, H by exact Ho.
  reflexivity.
Qed.

End Reassembly.

(** ** Closing and sending *)

Section Closing.

Variable enc : pystr -> bytes.
Variable dec : bytes -> option pystr.

(** A session that is open writes one CLOSE frame with the given code,
    then [wait_closed] hands everything to the socket and closes it. *)
Lemma close_then_wait_closed (code : Z) (s : WebsocketClient) :
  enc [] = [] ->
  open s = true ->
  0 <= code < 65536 ->
  exists s' w,
    (close enc code [] ;;; wait_closed) s = (Ret tt, s')
    /\ open s' = false
    /\ closed (_stream s') = true
    /\ out_buf (_stream s') = []
    /\ rx (_stream s') = rx (_stream s)
    /\ wire (_stream s') = wire (_stream s) ++ out_buf (_stream s) ++ w
    /\ decode_wire enc w = (Ret (true, OP_CLOSE, Some (Struct.pack_H code)), []).
Proof.
  intros He Ho Hc. eexists. exists (frame_bytes OP_CLOSE (mask_key s) (Struct.pack_H code)).
  unfold bind at 1. rewrite close_open by (auto; rewrite He; cbn; lia).
  rewrite He, app_nil_r. cbn -[frame_bytes mask_key Struct.pack_H decode_wire].
  repeat split.
  apply decode_wire_of_written; [unfold OP_CLOSE; lia|cbn; lia|reflexivity].
Qed.

(** C4 (as the code has it). When [recv] decodes a CLOSE frame from the
    peer, whatever its payload and so whatever close code it carries, the
    session writes one CLOSE frame whose payload is the two bytes of code
    1000, marks itself closed, drains the write buffer to the socket,
    closes the stream, and [recv] returns [None]. *)
Theorem C4_remote_close_answered_with_1000
        (s s1 : WebsocketClient) (fin : bool) (d : bytes)
        (fuel : nat) (popcode : option Z) (buf : bytes) :
  enc [] = [] ->
  open s = true ->
  _read_frame enc s = (Ret (fin, OP_CLOSE, Some d), s1) ->
  exists s' w,
    recv_loop enc dec (S fuel) popcode buf s = Some (Ret RNone, s')
    /\ recv enc dec s = Some (Ret RNone, s')
    /\ open s' = false
    /\ closed (_stream s') = true
    /\ out_buf (_stream s') = []
    /\ wire (_stream s') = wire (_stream s) ++ out_buf (_stream s) ++ w
    /\ decode_wire enc w
       = (Ret (true, OP_CLOSE, Some (Struct.pack_H CLOSE_OK)), [])
    /\ Struct.unpack_be (Struct.pack_H CLOSE_OK) = 1000.
Proof.
  intros He Ho H.
  destruct (read_frame_inv enc _ _ _ _ _ H) as (_ & S1).
  apply same_session_fields in S1 as (O1 & _ & B1 & W1 & _).
  destruct (close_then_wait_closed CLOSE_OK s1 He ltac:(congruence)
              ltac:(unfold CLOSE_OK; lia))
    as (s' & w & Hc & F1 & F2 & F3 & _ & F4 & F5).
  assert (E : forall fuel popcode buf,
             recv_loop enc dec (S fuel) popcode buf s = Some (Ret RNone, s')).
  { intros f p b. rewrite recv_loop_step, H by exact Ho. cbn -[close wait_closed].
    unfold bind in Hc |- *.
    destruct (close enc CLOSE_OK [] s1) as [[u|e] sa]; [|discriminate].
    destruct (wait_closed sa) as [[u'|e] sb]; [|discriminate].
    inversion Hc; subst. reflexivity. }
  exists s', w. rewrite <- B1, <- W1.
  repeat split; auto. apply E.
Qed.

(** C6. An oversized payload: when the header of an incoming frame was
    read and the payload it declares cannot be allocated, the session
    writes a CLOSE frame with code 1009, marks itself closed, drains the
    write buffer to the socket, and [recv] returns [None]; it raises
    nothing and returns no data.  The stream is closed as well. *)
Theorem C6_oversized_payload_closes_1009
        (s s1 : WebsocketClient) (fin : bool) (opcode : Z) (mask : bool)
        (len : Z) (mask_bits : bytes)
        (fuel : nat) (popcode : option Z) (buf : bytes) :
  enc [] = [] ->
  open s = true ->
  _read_frame_header s = (Ret (fin, opcode, mask, len, mask_bits), s1) ->
  heap (_stream s1) < len ->
  exists s' w,
    recv_loop enc dec (S fuel) popcode buf s = Some (Ret RNone, s')
    /\ recv enc dec s = Some (Ret RNone, s')
    /\ open s' = false
    /\ closed (_stream s') = true
    /\ out_buf (_stream s') = []
    /\ wire (_stream s') = wire (_stream s) ++ out_buf (_stream s) ++ w
    /\ decode_wire enc w
       = (Ret (true, OP_CLOSE, Some (Struct.pack_H CLOSE_TOO_BIG)), [])
    /\ Struct.unpack_be (Struct.pack_H CLOSE_TOO_BIG) = 1009.
Proof.
  intros He Ho Hh Hbig.
  destruct (read_header_inv _ _ _ Hh) as (S1 & _ & H2).
  apply same_session_fields in S1 as (O1 & _ & B1 & W1 & _ & P1).
  assert (Hread : on_stream (StreamOps.readexactly len) s1
                  = (Raise MemoryError, s1)).
  { unfold on_stream, StreamOps.readexactly.
    destruct (Z.eqb_spec len 0); [lia|].
    destruct (Z.ltb_spec (heap (_stream s1)) len); [|lia].
    destruct s1; reflexivity. }
  set (w := frame_bytes OP_CLOSE (mask_key s1) (Struct.pack_H CLOSE_TOO_BIG)).
  set (sa := mkClient (mkStream (rx (_stream s1)) []
                         (wire (_stream s1) ++ out_buf (_stream s1) ++ w)
                         (closed (_stream s1)) (heap (_stream s1)))
                      false (tl (random_state s1))).
  assert (Hf : _read_frame enc s = (Ret (true, OP_CLOSE, None), sa)).
  { unfold _read_frame. unfold bind at 1. rewrite Hh, Hread.
    unfold bind at 1.
    rewrite close_open by (try congruence; rewrite He; cbn; lia).
    rewrite He, app_nil_r. subst sa w.
    cbn -[frame_bytes mask_key Struct.pack_H]. reflexivity. }
  set (s' := mkClient (mkStream (rx (_stream s1)) []
                         (wire (_stream s1) ++ out_buf (_stream s1) ++ w)
                         true (heap (_stream s1)))
                      false (tl (random_state s1))).
  assert (E : forall fuel popcode buf,
             recv_loop enc dec (S fuel) popcode buf s = Some (Ret RNone, s')).
  { intros f p b. rewrite recv_loop_step, Hf by exact Ho.
    cbn -[close wait_closed].
    unfold bind at 1. rewrite close_closed by reflexivity.
    subst s' sa. cbn -[frame_bytes mask_key Struct.pack_H].
    now rewrite app_nil_r. }
  exists s', w. rewrite <- B1, <- W1.
  repeat split; auto.
  - apply E.
  - apply decode_wire_of_written;
      [unfold OP_CLOSE; lia|cbn; lia|reflexivity].
Qed.

End Closing.

Section CloseAndSend.

Variable enc : pystr -> bytes.

(** C7. [close] is idempotent: whatever the session, after one [close]
    the session is closed and a second [close], with any arguments,
    returns at once and changes nothing, so two calls leave what one call
    leaves.  On an open session the calls together write exactly one frame,
    a CLOSE frame carrying the first call's code and reason; on a closed
    session they write nothing. *)
Theorem C7_close_idempotent
        (s : WebsocketClient) (code code' : Z) (reason reason' : pystr) :
  Z.of_nat (length (Struct.pack_H code ++ enc reason)) < 2 ^ 64 ->
  exists s1,
    close enc code reason s = (Ret tt, s1)
    /\ open s1 = false
    /\ close enc code' reason' s1 = (Ret tt, s1)
    /\ (open s = true ->
        out_buf (_stream s1) = out_buf (_stream s) ++ written s s1
        /\ decode_wire enc (written s s1)
           = (Ret (true, OP_CLOSE, Some (Struct.pack_H code ++ enc reason)),
              []))
    /\ (open s = false -> s1 = s).
Proof.
  intros Hl. destruct (open s) eqn:Ho.
  - eexists. split; [apply close_open; assumption|].
    split; [reflexivity|]. split; [apply close_closed; reflexivity|].
    split; [|discriminate]. intros _.
    rewrite (written_app s _ (frame_bytes OP_CLOSE (mask_key s)
                                (Struct.pack_H code ++ enc reason)))
      by reflexivity.
    split; [reflexivity|].
    apply decode_wire_of_written; [unfold OP_CLOSE; lia|exact Hl|reflexivity].
  - exists s. split; [apply close_closed; assumption|].
    split; [assumption|]. split; [apply close_closed; assumption|].
    split; [discriminate|reflexivity].
Qed.

(** C8. [send]: on a closed session it returns at once, writes nothing
    and changes nothing, whatever it is given.  On an open session a [str]
    goes out as one masked final TEXT frame carrying its UTF-8 bytes and a
    [bytes] as one masked final BINARY frame, written and drained to the
    socket; anything else raises [TypeError] and writes nothing. *)
Theorem C8_send_contract (s : WebsocketClient) (buf : pyobj) :
  (open s = false -> send enc buf s = (Ret tt, s))
  /\ (open s = true ->
      match buf with
      | PyStr t =>
          Z.of_nat (length (enc t)) < 2 ^ 64 ->
          exists s' w,
            send enc buf s = (Ret tt, s')
            /\ open s' = true
            /\ out_buf (_stream s') = []
            /\ wire (_stream s') = wire (_stream s) ++ out_buf (_stream s) ++ w
            /\ decode_wire enc w = (Ret (true, OP_TEXT, Some (enc t)), [])
      | PyBytes b =>
          Z.of_nat (length b) < 2 ^ 64 ->
          exists s' w,
            send enc buf s = (Ret tt, s')
            /\ open s' = true
            /\ out_buf (_stream s') = []
            /\ wire (_stream s') = wire (_stream s) ++ out_buf (_stream s) ++ w
            /\ decode_wire enc w = (Ret (true, OP_BYTES, Some b), [])
      | _ => send enc buf s = (Raise TypeError, s)
      end).
Proof.
  split; intros Ho; unfold send; rewrite Ho; cbn [negb]; [reflexivity|].
  destruct buf as [t|b|b|z|]; try reflexivity; intros Hl.
  - eexists. exists (frame_bytes OP_TEXT (mask_key s) (enc t)).
    unfold bind. rewrite write_frame_ok by exact Hl.
    cbn -[frame_bytes mask_key decode_wire].
    repeat split; auto.
    apply decode_wire_of_written; [unfold OP_TEXT; lia|exact Hl|reflexivity].
  - eexists. exists (frame_bytes OP_BYTES (mask_key s) b).
    unfold bind. rewrite write_frame_ok by exact Hl.
    cbn -[frame_bytes mask_key decode_wire].
    repeat split; auto.
    apply decode_wire_of_written; [unfold OP_BYTES; lia|exact Hl|reflexivity].
Qed.

End CloseAndSend.

(** ** The handshake *)

(** The request only appends to the write buffer. *)
Lemma send_request_writes (path : option bytes) (host : bytes) (port : Z)
      (key url : bytes) (token : option bytes) (st : Stream) :
  exists req,
    send_request path host port key url token st
    = (Ret tt, mkStream (rx st) (out_buf st ++ req) (wire st) (closed st)
                        (heap st)).
Proof.
  unfold send_request.
  repeat (unfold bind at 1; unfold send_header at 1;
          unfold StreamOps.write at 1; cbv beta iota;
          cbn [rx out_buf wire closed heap]).
  destruct token as [[|c t]|];
    unfold ret, send_header, StreamOps.write;
    cbn [rx out_buf wire closed heap];
    rewrite <- ?app_assoc; eexists; reflexivity.
Qed.

(** A first line that does not start with the expected prefix does not
    start with it after [[:-2]] either. *)
Lemma startswith_firstn (n : nat) (l prefix : bytes) :
  startswith (firstn n l) prefix = true -> startswith l prefix = true.
Proof.
  revert n l. induction prefix as [|p prefix IH]; intros n l H.
  - now destruct l.
  - destruct n as [|n], l as [|c l]; try discriminate.
    cbn in H |- *. apply andb_prop in H as [H1 H2].
    rewrite H1. cbn. eauto.
Qed.

Lemma status_line_of_bad_first_line (stream : Stream) (prefix : bytes) :
  startswith (fst (StreamOps.split_line (rx stream))) prefix = false ->
  startswith (status_line stream) prefix = false.
Proof.
  intros H. unfold status_line, drop_last.
  destruct (startswith (firstn _ _) prefix) eqn:E; [|reflexivity].
  apply startswith_firstn in E. congruence.
Qed.

Section Handshake.

Variable b2a_base64 : bytes -> bytes.

(** C5 (as the code has it). When the url matched and the status line of
    the response (its first line without the last two bytes) does not
    start with "HTTP/1.1 101 ", [connect] raises
    [Exception('Invalid protocol header')] once the request is drained and
    the status line read, and returns no session.  It does not close the
    stream: the stream is left as open or closed as it was. *)
Theorem C5_bad_status_raises
        (g : url_match) (url : bytes) (token : option bytes)
        (stream : Stream) (rnd : list Z) :
  bytes_eqb (group1 g) (bytes_of_string "ws")
  || bytes_eqb (group1 g) (bytes_of_string "wss") = true ->
  startswith (status_line stream) (bytes_of_string "HTTP/1.1 101 ") = false ->
  exists st',
    connect b2a_base64 (Some g) url token stream rnd
    = Some (Raise (Exception_ "Invalid protocol header"), st')
    /\ closed st' = closed stream
    /\ out_buf st' = []
    /\ rx st' = snd (StreamOps.split_line (rx stream)).
Proof.
  intros Hs Hbad. unfold connect. rewrite Hs. cbn [negb].
  destruct (getrandbits_n 16 8 rnd) as [rand16 rnd'].
  destruct (send_request_writes (group4 g) (group2 g)
              match group3 g with
              | Some p => p
              | None =>
                  if bytes_eqb (group1 g) (bytes_of_string "ws")
                  then 80 else 443
              end
              (drop_last 1 (b2a_base64 rand16)) url token stream)
    as (req & Hreq).
  unfold bind at 1. rewrite Hreq.
  unfold status_line in Hbad.
  unfold bind, StreamOps.drain, StreamOps.readline, ret, set_rx.
  cbn [rx out_buf wire closed heap].
  destruct (StreamOps.split_line (rx stream)) as [line rest].
  cbn [fst snd] in *. rewrite Hbad. cbn [negb].
  eexists. split; [reflexivity|]. cbn [rx out_buf wire closed heap].
  auto.
Qed.

End Handshake.

(** ** A PING between fragments *)

Section Ping.

Variable enc : pystr -> bytes.
Variable dec : bytes -> option pystr.

(** One iteration on a PING frame: a PONG frame with the same payload is
    written and drained to the socket at once; the loop goes on with an
    empty buffer and PING as the opcode that CONTINUATION frames inherit,
    whatever the two were before. *)
Lemma recv_loop_ping (s s1 : WebsocketClient) (fin : bool) (d : bytes)
      (fuel : nat) (popcode : option Z) (buf : bytes) :
  open s = true ->
  _read_frame enc s = (Ret (fin, OP_PING, Some d), s1) ->
  Z.of_nat (length d) < 2 ^ 64 ->
  exists s2 w,
    recv_loop enc dec (S fuel) popcode buf s
    = recv_loop enc dec fuel (Some OP_PING) [] s2
    /\ out_buf (_stream s2) = []
    /\ wire (_stream s2) = wire (_stream s) ++ out_buf (_stream s) ++ w
    /\ decode_wire enc w = (Ret (true, OP_PONG, Some d), [])
    /\ rx (_stream s2) = rx (_stream s1)
    /\ open s2 = true.
Proof.
  intros Ho H Hl.
  destruct (read_frame_inv enc _ _ _ _ _ H) as (_ & S1).
  apply same_session_fields in S1 as (O1 & _ & B1 & W1 & _).
  eexists. exists (frame_bytes OP_PONG (mask_key s1) d).
  rewrite recv_loop_step, H by exact Ho.
  cbn -[recv_loop _write_frame frame_bytes mask_key decode_wire].
  unfold bind. rewrite write_frame_ok by exact Hl.
  cbn -[recv_loop frame_bytes mask_key decode_wire].
  split; [reflexivity|]. cbn -[frame_bytes mask_key decode_wire].
  rewrite <- B1, <- W1. repeat split; auto; [|congruence].
  apply decode_wire_of_written; [unfold OP_PONG; lia|exact Hl|reflexivity].
Qed.

End Ping.

(** C3. A PING between two fragments, on the bytes of a TEXT frame
    (fin = false, "a"), a PING frame ("p") and a final CONTINUATION frame
    ("b"), then end of file: the PING is answered with a PONG, but the
    buffer holding "a" is dropped and the CONTINUATION frame, inheriting
    PING, is answered with a second PONG; [recv] runs to the end of the
    input and returns [None].  Without the PING the same fragments give the
    text "ab". *)
Theorem C3_ping_between_fragments_drops_message :
  let fragments := session_on [0x01; 0x01; 0x61; 0x80; 0x01; 0x62] in
  let with_ping :=
    session_on [0x01; 0x01; 0x61; 0x89; 0x01; 0x70; 0x80; 0x01; 0x62] in
  option_map fst (recv ascii_encode ascii_decode fragments)
  = Some (Ret (RStr [0x61; 0x62]))
  /\ exists s',
       recv ascii_encode ascii_decode with_ping = Some (Ret RNone, s')
       /\ open s' = false
       /\ wire (_stream s')
          = frame_bytes OP_PONG [1; 2; 3; 4] [0x70]
            ++ frame_bytes OP_PONG [10; 11; 12; 13] [0x62].
Proof.
  split; [vm_compute; reflexivity|].
  eexists. split; [vm_compute; reflexivity|].
  split; vm_compute; reflexivity.
Qed.

(** ** The theorems at concrete inputs *)

Lemma C2_fragmented_text_reassembly_witness :
  let s0 := session_on [0x01; 0x01; 0x61; 0x00; 0x01; 0x62; 0x80; 0x01; 0x63] in
  let s1 := with_rx [0x00; 0x01; 0x62; 0x80; 0x01; 0x63] s0 in
  let s2 := with_rx [0x80; 0x01; 0x63] s0 in
  let s3 := with_rx [] s0 in
  open s0 = true
  /\ _read_frame ascii_encode s0 = (Ret (false, OP_TEXT, Some [0x61]), s1)
  /\ _read_frame ascii_encode s1 = (Ret (false, OP_CONT, Some [0x62]), s2)
  /\ _read_frame ascii_encode s2 = (Ret (true, OP_CONT, Some [0x63]), s3)
  /\ ascii_decode ([0x61] ++ [0x62] ++ [0x63]) = Some [0x61; 0x62; 0x63]
  /\ recv ascii_encode ascii_decode s0 = Some (Ret (RStr [0x61; 0x62; 0x63]), s3).
Proof.
  intros s0 s1 s2 s3.
  assert (Ho : open s0 = true) by reflexivity.
  assert (H1 : _read_frame ascii_encode s0
               = (Ret (false, OP_TEXT, Some [0x61]), s1)) by reflexivity.
  assert (H2 : _read_frame ascii_encode s1
               = (Ret (false, OP_CONT, Some [0x62]), s2)) by reflexivity.
  assert (H3 : _read_frame ascii_encode s2
               = (Ret (true, OP_CONT, Some [0x63]), s3)) by reflexivity.
  assert (Hd : ascii_decode ([0x61] ++ [0x62] ++ [0x63])
               = Some [0x61; 0x62; 0x63]) by reflexivity.
  repeat (split; [assumption|]).
  exact (proj1 (C2_fragmented_text_reassembly ascii_encode ascii_decode
                  s0 s1 s2 s3 [0x61] [0x62] [0x63] Ho H1 H2 H3) _ Hd).
Defined.

Lemma C10_continuation_first_raises_witness :
  let s := session_on [0x80; 0x01; 0x62] in
  open s = true
  /\ _read_frame ascii_encode s = (Ret (true, OP_CONT, Some [0x62]), with_rx [] s)
  /\ recv ascii_encode ascii_decode s
     = Some (Raise (ValueError [VNone]), with_rx [] s).
Proof.
  intros s.
  assert (Ho : open s = true) by reflexivity.
  assert (H : _read_frame ascii_encode s
              = (Ret (true, OP_CONT, Some [0x62]), with_rx [] s)) by reflexivity.
  repeat (split; [assumption|]).
  exact (C10_continuation_first_raises ascii_encode ascii_decode
           s (with_rx [] s) true (Some [0x62]) Ho H).
Defined.

(** C4, the claim as written, fails: the peer closes with code 1001 and
    the CLOSE frame the session answers with carries 1000. *)
Lemma C4_counterexample_code_not_echoed :
  let s := session_on (0x88 :: 0x02 :: Struct.pack_H CLOSE_GOING_AWAY) in
  _read_frame ascii_encode s
  = (Ret (true, OP_CLOSE, Some (Struct.pack_H CLOSE_GOING_AWAY)), with_rx [] s)
  /\ exists s' answer,
       recv ascii_encode ascii_decode s = Some (Ret RNone, s')
       /\ decode_wire ascii_encode (wire (_stream s'))
          = (Ret (true, OP_CLOSE, Some answer), [])
       /\ Struct.unpack_be (firstn 2 answer) = 1000
       /\ Struct.unpack_be (firstn 2 answer) <> CLOSE_GOING_AWAY.
Proof.
  intros s. split; [reflexivity|].
  eexists. exists (Struct.pack_H CLOSE_OK).
  split; [vm_compute; reflexivity|].
  split; [vm_compute; reflexivity|].
  split; [reflexivity|]. vm_compute. discriminate.
Qed.

Lemma C4_remote_close_answered_with_1000_witness :
  let s := session_on (0x88 :: 0x02 :: Struct.pack_H CLOSE_GOING_AWAY) in
  ascii_encode [] = []
  /\ open s = true
  /\ _read_frame ascii_encode s
     = (Ret (true, OP_CLOSE, Some (Struct.pack_H CLOSE_GOING_AWAY)), with_rx [] s)
  /\ exists s' w,
       recv ascii_encode ascii_decode s = Some (Ret RNone, s')
       /\ open s' = false
       /\ closed (_stream s') = true
       /\ wire (_stream s') = w
       /\ decode_wire ascii_encode w
          = (Ret (true, OP_CLOSE, Some (Struct.pack_H CLOSE_OK)), []).
Proof.
  intros s.
  assert (He : ascii_encode [] = []) by reflexivity.
  assert (Ho : open s = true) by reflexivity.
  assert (H : _read_frame ascii_encode s
              = (Ret (true, OP_CLOSE, Some (Struct.pack_H CLOSE_GOING_AWAY)),
                 with_rx [] s)) by reflexivity.
  repeat (split; [assumption|]).
  destruct (C4_remote_close_answered_with_1000 ascii_encode ascii_decode
              s (with_rx [] s) true (Struct.pack_H CLOSE_GOING_AWAY)
              0%nat None [] He Ho H)
    as (s' & w & _ & R & F1 & F2 & _ & F4 & F5 & _).
  exists s', w. repeat split; assumption.
Defined.

Lemma C6_oversized_payload_closes_1009_witness :
  let s := session_on [0x82; 0x7f; 0; 0; 0; 0; 0; 1; 0; 0; 1; 2; 3] in
  ascii_encode [] = []
  /\ open s = true
  /\ _read_frame_header s = (Ret (true, OP_BYTES, false, 65536, []), with_rx [1; 2; 3] s)
  /\ heap (_stream (with_rx [1; 2; 3] s)) < 65536
  /\ exists s' w,
       recv ascii_encode ascii_decode s = Some (Ret RNone, s')
       /\ open s' = false
       /\ wire (_stream s') = w
       /\ decode_wire ascii_encode w
          = (Ret (true, OP_CLOSE, Some (Struct.pack_H CLOSE_TOO_BIG)), []).
Proof.
  intros s.
  assert (He : ascii_encode [] = []) by reflexivity.
  assert (Ho : open s = true) by reflexivity.
  assert (H : _read_frame_header s
              = (Ret (true, OP_BYTES, false, 65536, []), with_rx [1; 2; 3] s))
    by reflexivity.
  assert (Hb : heap (_stream (with_rx [1; 2; 3] s)) < 65536) by reflexivity.
  repeat (split; [assumption|]).
  destruct (C6_oversized_payload_closes_1009 ascii_encode ascii_decode
              s (with_rx [1; 2; 3] s) true OP_BYTES false 65536 []
              0%nat None [] He Ho H Hb)
    as (s' & w & _ & R & F1 & _ & _ & F4 & F5 & _).
  exists s', w. repeat split; assumption.
Defined.

Lemma C7_close_idempotent_witness :
  let s := session_on [] in
  Z.of_nat (length (Struct.pack_H CLOSE_OK ++ ascii_encode [])) < 2 ^ 64
  /\ exists s1,
       close ascii_encode CLOSE_OK [] s = (Ret tt, s1)
       /\ open s1 = false
       /\ close ascii_encode CLOSE_OK [] s1 = (Ret tt, s1).
Proof.
  intros s.
  assert (Hl : Z.of_nat (length (Struct.pack_H CLOSE_OK ++ ascii_encode []))
               < 2 ^ 64) by reflexivity.
  split; [assumption|].
  destruct (C7_close_idempotent ascii_encode s CLOSE_OK CLOSE_OK [] [] Hl)
    as (s1 & H1 & H2 & H3 & _).
  exists s1. repeat split; assumption.
Defined.

Lemma C8_send_contract_witness :
  let s := session_on [] in
  let text := [0x68; 0x69] in
  open s = true
  /\ Z.of_nat (length (ascii_encode text)) < 2 ^ 64
  /\ exists s' w,
       send ascii_encode (PyStr text) s = (Ret tt, s')
       /\ wire (_stream s') = wire (_stream s) ++ out_buf (_stream s) ++ w
       /\ decode_wire ascii_encode w = (Ret (true, OP_TEXT, Some text), []).
Proof.
  intros s text.
  assert (Ho : open s = true) by reflexivity.
  assert (Hl : Z.of_nat (length (ascii_encode text)) < 2 ^ 64) by reflexivity.
  repeat (split; [assumption|]).
  destruct (proj2 (C8_send_contract ascii_encode s (PyStr text)) Ho Hl)
    as (s' & w & H1 & _ & _ & H4 & H5).
  exists s', w. repeat split; assumption.
Defined.

(** C5, the claim as written, fails: on "HTTP/1.1 404 Not Found"
    [connect] raises and the stream it opened is still open. *)
Lemma C5_counterexample_stream_not_released :
  let stream :=
    mkStream (bytes_of_string "HTTP/1.1 404 Not Found" ++ CRLF ++ CRLF)
             [] [] false 4096 in
  let g := mkMatch (bytes_of_string "ws") (bytes_of_string "example.com")
                   None None in
  exists st',
    connect base64_line (Some g) (bytes_of_string "ws://example.com") None
            stream []
    = Some (Raise (Exception_ "Invalid protocol header"), st')
    /\ closed st' = false.
Proof.
  intros stream g. eexists. split; [vm_compute; reflexivity|reflexivity].
Qed.

Lemma C5_bad_status_raises_witness :
  let stream :=
    mkStream (bytes_of_string "HTTP/1.1 404 Not Found" ++ CRLF ++ CRLF)
             [] [] false 4096 in
  let g := mkMatch (bytes_of_string "ws") (bytes_of_string "example.com")
                   None None in
  bytes_eqb (group1 g) (bytes_of_string "ws")
  || bytes_eqb (group1 g) (bytes_of_string "wss") = true
  /\ startswith (status_line stream) (bytes_of_string "HTTP/1.1 101 ") = false
  /\ exists st',
       connect base64_line (Some g) (bytes_of_string "ws://example.com") None
               stream []
       = Some (Raise (Exception_ "Invalid protocol header"), st')
       /\ closed st' = closed stream.
Proof.
  intros stream g.
  assert (Hs : bytes_eqb (group1 g) (bytes_of_string "ws")
               || bytes_eqb (group1 g) (bytes_of_string "wss") = true)
    by reflexivity.
  assert (Hb : startswith (status_line stream)
                 (bytes_of_string "HTTP/1.1 101 ") = false) by reflexivity.
  repeat (split; [assumption|]).
  destruct (C5_bad_status_raises base64_line g
              (bytes_of_string "ws://example.com") None stream [] Hs Hb)
    as (st' & H1 & H2 & _).
  exists st'. split; assumption.
Defined.

(** ** The frames of RFC 6455, section 5.7 *)

(** A single-frame masked text message "Hello" with key 37 fa 21 3d. *)
Example rfc6455_masked_hello :
  let s := mkClient (mkStream [] [] [] false 4096) true [0x37fa213d] in
  out_buf (_stream (snd (_write_frame OP_TEXT [0x48; 0x65; 0x6c; 0x6c; 0x6f] s)))
  = [0x81; 0x85; 0x37; 0xfa; 0x21; 0x3d; 0x7f; 0x9f; 0x4d; 0x51; 0x58].
Proof. reflexivity. Qed.

(** The same message unmasked, as a server sends it, and masked. *)
Example rfc6455_read_hello :
  fst (_read_frame ascii_encode
         (session_on [0x81; 0x05; 0x48; 0x65; 0x6c; 0x6c; 0x6f]))
  = Ret (true, OP_TEXT, Some [0x48; 0x65; 0x6c; 0x6c; 0x6f])
  /\ fst (_read_frame ascii_encode
            (session_on [0x81; 0x85; 0x37; 0xfa; 0x21; 0x3d;
                         0x7f; 0x9f; 0x4d; 0x51; 0x58]))
     = Ret (true, OP_TEXT, Some [0x48; 0x65; 0x6c; 0x6c; 0x6f]).
Proof. split; reflexivity. Qed.

(** A fragmented unmasked text message, "Hel" then "lo". *)
Example rfc6455_fragmented_hello :
  option_map fst
    (recv ascii_encode ascii_decode
       (session_on [0x01; 0x03; 0x48; 0x65; 0x6c; 0x80; 0x02; 0x6c; 0x6f]))
  = Some (Ret (RStr [0x48; 0x65; 0x6c; 0x6c; 0x6f])).
Proof. reflexivity. Qed.

(** An unmasked PING "Hello" is answered with a masked PONG "Hello". *)
Example rfc6455_ping_pong :
  option_map (fun r => decode_wire ascii_encode (wire (_stream (snd r))))
    (recv ascii_encode ascii_decode
       (session_on [0x89; 0x05; 0x48; 0x65; 0x6c; 0x6c; 0x6f]))
  = Some (Ret (true, OP_PONG, Some [0x48; 0x65; 0x6c; 0x6c; 0x6f]), []).
Proof. reflexivity. Qed.

(** 256 bytes of binary data: length field 126, then 0x0100. *)
Example rfc6455_length_256 :
  let s := mkClient (mkStream [] [] [] false 4096) true [0] in
  firstn 4 (out_buf (_stream (snd (_write_frame OP_BYTES (repeat 0 256) s))))
  = [0x82; 0xfe; 0x01; 0x00].
Proof. vm_compute. reflexivity. Qed.


(** * Further properties of the code *)

(** ** What a frame read can do to the session *)

Lemma reads_only_ret {A} (a : A) : reads_only (ret a).
Proof.
  intros s r s1 H. inversion H; subst. split; [apply same_session_refl|lia].
Qed.

Lemma reads_only_read (n : Z) : reads_only (on_stream (StreamOps.readexactly n)).
Proof.
  intros s r s1 H. apply on_stream_read_inv in H as (? & ? & _). auto.
Qed.

Lemma reads_only_bind {A B} (m : M WebsocketClient A)
      (k : A -> M WebsocketClient B) :
  reads_only m -> (forall a, reads_only (k a)) -> reads_only (bind m k).
Proof.
  intros Hm Hk s r s2 H. unfold bind in H.
  destruct (m s) as [[a|e] s1] eqn:E.
  - destruct (Hm _ _ _ E) as [S1 L1]. destruct (Hk a _ _ _ H) as [S2 L2].
    split; [eauto using same_session_trans|lia].
  - inversion H; subst. eapply Hm; eauto.
Qed.

Lemma read_header_reads_only : reads_only _read_frame_header.
Proof.
  unfold _read_frame_header.
  apply reads_only_bind; [apply reads_only_read|]. intros hdr. cbv zeta.
  apply reads_only_bind.
  - destruct (Z.land (nth 1 hdr 0) 127 =? 126);
      [|destruct (Z.land (nth 1 hdr 0) 127 =? 127)];
      try apply reads_only_ret;
      (apply reads_only_bind; [apply reads_only_read|intros; apply reads_only_ret]).
  - intros len. apply reads_only_bind; [|intros; apply reads_only_ret].
    destruct (negb (Z.land (nth 1 hdr 0) (Z.shiftl 1 7) =? 0));
      [apply reads_only_read|apply reads_only_ret].
Qed.

Section FrameEffects.

Variable enc : pystr -> bytes.

(** A frame read either only consumes input, or it is the answer to a
    payload that could not be allocated: the session is then closed and
    its write buffer drained. *)
Lemma read_frame_cases (s s1 : WebsocketClient) (r : result frame) :
  _read_frame enc s = (r, s1) ->
  (same_session s s1
   /\ (length (rx (_stream s1)) <= length (rx (_stream s)))%nat
   /\ forall fin opcode, r <> Ret (fin, opcode, None))
  \/ (r = Ret (true, OP_CLOSE, None)
      /\ open s1 = false
      /\ out_buf (_stream s1) = []
      /\ closed (_stream s1) = closed (_stream s)).
Proof.
  unfold _read_frame. unfold bind at 1. intros H.
  destruct (_read_frame_header s) as [[h|e] sa] eqn:Hh.
  2:{ inversion H; subst. left.
      destruct (read_header_reads_only _ _ _ Hh). repeat split; auto.
      discriminate. }
  destruct (read_header_reads_only _ _ _ Hh) as [Sa La].
  destruct h as [[[[fin op] mask] len] mb].
  destruct (on_stream (StreamOps.readexactly len) sa) as [[d|e] sb] eqn:Hb.
  - inversion H; subst. left.
    destruct (reads_only_read _ _ _ _ Hb).
    split; [eauto using same_session_trans|]. split; [lia|discriminate].
  - assert (Hleft : (Raise e, sb) = (r, s1) ->
              (same_session s s1
               /\ (length (rx (_stream s1)) <= length (rx (_stream s)))%nat
               /\ forall fin opcode, r <> Ret (fin, opcode, None))
              \/ (r = Ret (true, OP_CLOSE, None)
                  /\ open s1 = false
                  /\ out_buf (_stream s1) = []
                  /\ closed (_stream s1) = closed (_stream s))).
    { intros E. inversion E; subst. left.
      destruct (reads_only_read _ _ _ _ Hb).
      split; [eauto using same_session_trans|]. split; [lia|discriminate]. }
    destruct e; try (apply Hleft; exact H). clear Hleft.
    apply on_stream_read_inv in Hb as (_ & _ & -> & _).
    destruct (same_session_fields _ _ Sa) as (O & _ & _ & _ & C & _).
    unfold bind at 1 in H.
    destruct (open sa) eqn:Ho.
    + destruct (Z.lt_ge_cases
                  (Z.of_nat (length (Struct.pack_H CLOSE_TOO_BIG ++ enc [])))
                  (2 ^ 64)) as [Hl|Hl].
      * rewrite close_open in H by assumption.
        inversion H; subst. right. cbn. auto.
      * unfold close in H. rewrite Ho in H. cbn [negb] in H.
        unfold bind at 1 in H. rewrite write_frame_too_long in H by exact Hl.
        inversion H; subst. left.
        split; [exact Sa|]. split; [lia|discriminate].
    + rewrite close_closed in H by assumption.
      inversion H; subst. right. cbn. auto.
Qed.

End FrameEffects.

(** ** End of input, unknown opcodes, and what [recv] leaves behind *)

Section RecvInvariants.

Variable enc : pystr -> bytes.
Variable dec : bytes -> option pystr.

Lemma pong_cases (d : bytes) (s1 s2 : WebsocketClient) (r : result unit) :
  (_write_frame OP_PONG d ;;; on_stream StreamOps.drain) s1 = (r, s2) ->
  (r = Ret tt
   /\ open s2 = open s1
   /\ closed (_stream s2) = closed (_stream s1)
   /\ out_buf (_stream s2) = []
   /\ rx (_stream s2) = rx (_stream s1))
  \/ (r = Raise (ValueError []) /\ s2 = s1).
Proof.
  unfold bind. intros H.
  destruct (Z.lt_ge_cases (Z.of_nat (length d)) (2 ^ 64)) as [Hl|Hl].
  - rewrite write_frame_ok in H by exact Hl. inversion H; subst.
    left. cbn. auto.
  - rewrite write_frame_too_long in H by exact Hl. inversion H; subst.
    right. auto.
Qed.

Lemma close_wait_cases (code : Z) (s1 s' : WebsocketClient)
      (r : result recv_value) :
  (close enc code [] ;;; wait_closed ;;; ret RNone) s1 = (r, s') ->
  (r = Ret RNone /\ open s' = false /\ out_buf (_stream s') = [])
  \/ (r = Raise (ValueError []) /\ s' = s1).
Proof.
  unfold bind at 1. intros H.
  destruct (open s1) eqn:Ho.
  - destruct (Z.lt_ge_cases
                (Z.of_nat (length (Struct.pack_H code ++ enc [])))
                (2 ^ 64)) as [Hl|Hl].
    + rewrite close_open in H by assumption.
      inversion H; subst. left. cbn. auto.
    + unfold close in H. rewrite Ho in H. cbn [negb] in H.
      unfold bind at 1 in H. rewrite write_frame_too_long in H by exact Hl.
      inversion H; subst. right. auto.
  - rewrite close_closed in H by assumption.
    inversion H; subst. left. cbn. auto.
Qed.

(** Closes the three facts of an exit whose result and state are known. *)
Ltac exit_facts :=
  let E := fresh "E" in
  let N := fresh "N" in
  let B := fresh "B" in
  let v := fresh "v" in
  split;
  [ intros E; try discriminate E; try (inversion E; subst); congruence
  | split;
    [ intros v E N; try discriminate E; inversion E; subst;
      try congruence; split; congruence
    | intros B; congruence ] ].

(** The same facts from those of the rest of the loop. *)
Ltac via_IH I1 I2 I3 :=
  let E := fresh "E" in
  let N := fresh "N" in
  let B := fresh "B" in
  let v := fresh "v" in
  split;
  [ exact I1
  | split;
    [ intros v E N; destruct (I2 v E N); split; congruence
    | intros B; apply I3; congruence ] ].

(** What every exit of the loop guarantees. *)
Lemma recv_loop_exit (fuel : nat) :
  forall popcode buf s r s',
    recv_loop enc dec fuel popcode buf s = Some (r, s') ->
    (r = Ret RNone -> open s' = false)
    /\ (forall v, r = Ret v -> v <> RNone ->
                  open s' = true
                  /\ closed (_stream s') = closed (_stream s))
    /\ (out_buf (_stream s) = [] -> out_buf (_stream s') = []).
Proof.
  induction fuel as [|fuel IH]; intros popcode buf s r s' H;
    destruct (open s) eqn:Ho.
  - cbn [recv_loop] in H. rewrite Ho in H. discriminate.
  - cbn [recv_loop] in H. rewrite Ho in H. inversion H; subst. exit_facts.
  - rewrite recv_loop_step in H by exact Ho.
    destruct (_read_frame enc s) as [[[[fin op] data]|e] s1] eqn:Hr.
    + destruct (read_frame_cases enc _ _ _ Hr)
        as [(S1 & _ & Hn)|(E & O1 & B1 & C1)].
      * destruct (same_session_fields _ _ S1) as (O1 & _ & B1 & _ & C1 & _).
        destruct data as [d|]; [|exfalso; eapply Hn; reflexivity].
        cbv zeta in H.
        repeat match type of H with
               | (if ?c then _ else _) = _ => destruct c
               | match dec ?b with _ => _ end = _ => destruct (dec b)
               end.
        1-3, 8: (inversion H; subst; exit_facts).
        -- apply IH in H as (I1 & I2 & I3). via_IH I1 I2 I3.
        -- injection H as H.
           destruct (close_wait_cases CLOSE_OK s1 s' r H)
             as [(-> & F1 & F2)|(-> & ->)]; exit_facts.
        -- apply IH in H as (I1 & I2 & I3). via_IH I1 I2 I3.
        -- destruct ((_write_frame OP_PONG d;;; on_stream StreamOps.drain) s1)
             as [[u|e] s2] eqn:Hp.
           ++ destruct (pong_cases _ _ _ _ Hp)
                as [(_ & P1 & P2 & P3 & _)|(Ep & _)]; [|discriminate].
              apply IH in H as (I1 & I2 & I3). via_IH I1 I2 I3.
           ++ destruct (pong_cases _ _ _ _ Hp) as [(Ep & _)|(Ep & ->)];
                [discriminate|].
              inversion H; subst. exit_facts.
      * inversion E; subst. cbn -[close wait_closed] in H.
        injection H as H.
        destruct (close_wait_cases CLOSE_OK s1 s' r H)
          as [(-> & F1 & F2)|(-> & ->)]; exit_facts.
    + destruct (read_frame_cases enc _ _ _ Hr)
        as [(S1 & _ & _)|(E & _)]; [|discriminate].
      destruct (same_session_fields _ _ S1) as (O1 & _ & B1 & _ & C1 & _).
      destruct e; inversion H; subst; cbn; exit_facts.
  - cbn [recv_loop] in H. rewrite Ho in H. inversion H; subst. exit_facts.
Qed.

(** X1. Once [recv] has returned [None], whatever the reason (end of
    input, a CLOSE frame, a payload too big, a session already closed),
    the session is closed: a later [recv] returns [None] at once without
    reading, and [send] returns at once without writing. *)
Theorem recv_none_closes_session (s s' : WebsocketClient) :
  recv enc dec s = Some (Ret RNone, s') ->
  open s' = false
  /\ recv enc dec s' = Some (Ret RNone, s')
  /\ forall buf, send enc buf s' = (Ret tt, s').
Proof.
  intros H. unfold recv in H.
  apply recv_loop_exit in H as (I1 & _).
  specialize (I1 eq_refl).
  split; [exact I1|]. split.
  - unfold recv. cbn [recv_loop]. now rewrite I1.
  - intros buf. unfold send. now rewrite I1.
Qed.

(** X2. When [recv] returns a message, the session is still open and
    [recv] has not closed the stream. *)
Theorem recv_message_keeps_session_open
        (s s' : WebsocketClient) (v : recv_value) :
  recv enc dec s = Some (Ret v, s') ->
  v <> RNone ->
  open s' = true /\ closed (_stream s') = closed (_stream s).
Proof.
  intros H N. unfold recv in H.
  apply recv_loop_exit in H as (_ & I2 & _). eauto.
Qed.

(** X3. [recv] leaves nothing it wrote in the write buffer: if the buffer
    was empty when [recv] was called, it is empty when [recv] returns or
    raises; the PONG and CLOSE frames it writes are drained to the
    socket. *)
Theorem recv_leaves_write_buffer_empty
        (s s' : WebsocketClient) (r : result recv_value) :
  recv enc dec s = Some (r, s') ->
  out_buf (_stream s) = [] ->
  out_buf (_stream s') = [].
Proof.
  intros H B. unfold recv in H.
  apply recv_loop_exit in H as (_ & _ & I3). auto.
Qed.

(** X4. End of input inside a frame, in its header or in its payload:
    [recv] returns [None] and marks the session closed; it writes nothing
    (no CLOSE frame is sent) and does not close the stream. *)
Theorem recv_eof_closes_silently
        (s s1 : WebsocketClient) (fuel : nat) (popcode : option Z)
        (buf : bytes) :
  open s = true ->
  _read_frame enc s = (Raise EOFError, s1) ->
  exists s',
    recv_loop enc dec (S fuel) popcode buf s = Some (Ret RNone, s')
    /\ recv enc dec s = Some (Ret RNone, s')
    /\ open s' = false
    /\ out_buf (_stream s') = out_buf (_stream s)
    /\ wire (_stream s') = wire (_stream s)
    /\ closed (_stream s') = closed (_stream s).
Proof.
  intros Ho H.
  destruct (read_frame_cases enc _ _ _ H) as [(S1 & _)|(E & _)];
    [|discriminate].
  destruct (same_session_fields _ _ S1) as (_ & _ & B1 & W1 & C1 & _).
  exists (mkClient (_stream s1) false (random_state s1)).
  split; [|split].
  - rewrite recv_loop_step, H by exact Ho. reflexivity.
  - unfold recv. rewrite recv_loop_step, H by exact Ho. reflexivity.
  - cbn. auto.
Qed.

(** X5. A frame with an opcode [recv] has no branch for (3 to 7, 11 to
    15), at any point of the loop: [recv] raises [ValueError] with that
    opcode; nothing is written and the session stays open. *)
Theorem recv_unknown_opcode_raises
        (s s1 : WebsocketClient) (fin : bool) (opcode : Z)
        (data : option bytes) (fuel : nat) (popcode : option Z)
        (buf : bytes) :
  open s = true ->
  _read_frame enc s = (Ret (fin, opcode, data), s1) ->
  known_opcode opcode = false ->
  recv_loop enc dec (S fuel) popcode buf s
  = Some (Raise (ValueError [VInt opcode]), s1)
  /\ recv enc dec s = Some (Raise (ValueError [VInt opcode]), s1)
  /\ open s1 = true
  /\ out_buf (_stream s1) = out_buf (_stream s)
  /\ wire (_stream s1) = wire (_stream s).
Proof.
  intros Ho H K.
  unfold known_opcode in K. cbn [existsb] in K.
  repeat (apply orb_false_iff in K as [?E K]).
  assert (R : forall fuel popcode buf,
             recv_loop enc dec (S fuel) popcode buf s
             = Some (Raise (ValueError [VInt opcode]), s1)).
  { intros f p b. rewrite recv_loop_step, H by exact Ho.
    cbv zeta. rewrite E. cbn [op_eq]. rewrite E0, E1, E2, E3, E4.
    reflexivity. }
  split; [apply R|]. split; [apply R|].
  destruct (read_frame_cases enc _ _ _ H) as [(S1 & _)|(Ec & _)].
  - destruct (same_session_fields _ _ S1) as (O1 & _ & B1 & W1 & _).
    repeat split; congruence.
  - inversion Ec; subst. discriminate.
Qed.

End RecvInvariants.

(** ** Messages: single frames, fragments, and what the peer receives *)

Section Messages.

Variable enc : pystr -> bytes.
Variable dec : bytes -> option pystr.

Lemma recv_single_frame (r r1 : WebsocketClient) (opcode : Z) (d : bytes) :
  open r = true ->
  _read_frame enc r = (Ret (true, opcode, Some d), r1) ->
  (opcode = OP_BYTES -> recv enc dec r = Some (Ret (RByteArray d), r1))
  /\ (opcode = OP_TEXT ->
      forall t, dec d = Some t -> recv enc dec r = Some (Ret (RStr t), r1)).
Proof.
  intros Ho H. split.
  - intros ->. unfold recv. rewrite recv_loop_step, H by exact Ho. reflexivity.
  - intros -> t Ht. unfold recv. rewrite recv_loop_step, H by exact Ho.
    cbn. now rewrite Ht.
Qed.

Lemma send_bytes_ok (s : WebsocketClient) (b : bytes) :
  open s = true ->
  Z.of_nat (length b) < 2 ^ 64 ->
  send enc (PyBytes b) s
  = (Ret tt,
     mkClient (mkStream (rx (_stream s)) []
                        (wire (_stream s) ++ out_buf (_stream s)
                         ++ frame_bytes OP_BYTES (mask_key s) b)
                        (closed (_stream s)) (heap (_stream s)))
              true (tl (random_state s))).
Proof.
  intros Ho Hl. unfold send. rewrite Ho. cbn [negb].
  unfold bind. rewrite write_frame_ok by exact Hl.
  cbn -[frame_bytes mask_key]. now rewrite Ho.
Qed.

Lemma recv_of_bytes_frame (r : WebsocketClient) (key b rest : bytes) :
  open r = true ->
  Z.of_nat (length b) < 2 ^ 64 ->
  length key = 4%nat ->
  8 <= heap (_stream r) ->
  Z.of_nat (length b) <= heap (_stream r) ->
  rx (_stream r) = frame_bytes OP_BYTES key b ++ rest ->
  recv enc dec r = Some (Ret (RByteArray b), with_rx rest r).
Proof.
  intros Hr Hl Hk H8 Hfit Hrx.
  apply (recv_single_frame r (with_rx rest r) OP_BYTES b Hr); [|reflexivity].
  apply (read_frame_of_written enc OP_BYTES key); auto.
  unfold OP_BYTES; lia.
Qed.

(** X6. What [send] writes for a [bytes] payload, [recv] on the other
    side returns: a peer that reads the bytes put on the wire gets the
    payload back as one binary message and is left at the byte after the
    frame. *)
Theorem send_recv_roundtrip_bytes
        (s r : WebsocketClient) (b rest : bytes) :
  open s = true ->
  Z.of_nat (length b) < 2 ^ 64 ->
  open r = true ->
  8 <= heap (_stream r) ->
  Z.of_nat (length b) <= heap (_stream r) ->
  exists s' w,
    send enc (PyBytes b) s = (Ret tt, s')
    /\ wire (_stream s') = wire (_stream s) ++ out_buf (_stream s) ++ w
    /\ (rx (_stream r) = w ++ rest ->
        recv enc dec r = Some (Ret (RByteArray b), with_rx rest r)).
Proof.
  intros Ho Hl Hr H8 Hfit.
  eexists. exists (frame_bytes OP_BYTES (mask_key s) b).
  split; [apply send_bytes_ok; assumption|].
  split; [reflexivity|].
  intros Hrx. apply (recv_of_bytes_frame r (mask_key s)); auto.
Qed.

(** X7. The same for a [str], when the codec decodes what it encodes:
    the peer's [recv] returns the text. *)
Theorem send_recv_roundtrip_text
        (s r : WebsocketClient) (t : pystr) (rest : bytes) :
  dec (enc t) = Some t ->
  open s = true ->
  Z.of_nat (length (enc t)) < 2 ^ 64 ->
  open r = true ->
  8 <= heap (_stream r) ->
  Z.of_nat (length (enc t)) <= heap (_stream r) ->
  exists s' w,
    send enc (PyStr t) s = (Ret tt, s')
    /\ wire (_stream s') = wire (_stream s) ++ out_buf (_stream s) ++ w
    /\ (rx (_stream r) = w ++ rest ->
        recv enc dec r = Some (Ret (RStr t), with_rx rest r)).
Proof.
  intros Hc Ho Hl Hr H8 Hfit.
  eexists. exists (frame_bytes OP_TEXT (mask_key s) (enc t)).
  unfold send. rewrite Ho. cbn [negb].
  unfold bind. rewrite write_frame_ok by exact Hl.
  cbn -[frame_bytes mask_key recv].
  split; [reflexivity|]. split; [reflexivity|].
  intros Hrx.
  assert (F : _read_frame enc r
              = (Ret (true, OP_TEXT, Some (enc t)), with_rx rest r)).
  { apply (read_frame_of_written enc OP_TEXT (mask_key s)); auto.
    unfold OP_TEXT; lia. }
  apply (proj2 (recv_single_frame r (with_rx rest r) OP_TEXT (enc t) Hr F));
    auto.
Qed.

(** X8. Two messages sent one after the other arrive in that order: the
    wire carries the first frame then the second, and a peer's first
    [recv] returns the first payload, its second [recv] the second. *)
Theorem two_sends_arrive_in_order
        (s r : WebsocketClient) (a b rest : bytes) :
  open s = true ->
  Z.of_nat (length a) < 2 ^ 64 ->
  Z.of_nat (length b) < 2 ^ 64 ->
  open r = true ->
  8 <= heap (_stream r) ->
  Z.of_nat (length a) <= heap (_stream r) ->
  Z.of_nat (length b) <= heap (_stream r) ->
  exists s1 s2 w1 w2,
    send enc (PyBytes a) s = (Ret tt, s1)
    /\ send enc (PyBytes b) s1 = (Ret tt, s2)
    /\ wire (_stream s2) = wire (_stream s) ++ out_buf (_stream s) ++ w1 ++ w2
    /\ (rx (_stream r) = w1 ++ w2 ++ rest ->
        recv enc dec r
        = Some (Ret (RByteArray a), with_rx (w2 ++ rest) r)
        /\ recv enc dec (with_rx (w2 ++ rest) r)
           = Some (Ret (RByteArray b), with_rx rest r)).
Proof.
  intros Ho Ha Hb Hr H8 Hfa Hfb.
  set (s1 := mkClient (mkStream (rx (_stream s)) []
                         (wire (_stream s) ++ out_buf (_stream s)
                          ++ frame_bytes OP_BYTES (mask_key s) a)
                         (closed (_stream s)) (heap (_stream s)))
                      true (tl (random_state s))).
  exists s1. eexists.
  exists (frame_bytes OP_BYTES (mask_key s) a),
         (frame_bytes OP_BYTES (mask_key s1) b).
  split; [apply send_bytes_ok; assumption|].
  split; [apply send_bytes_ok; [reflexivity|assumption]|].
  split.
  - cbn -[frame_bytes mask_key]. now rewrite <- !app_assoc.
  - intros Hrx. split.
    + apply (recv_of_bytes_frame r (mask_key s)); auto.
    + apply (recv_of_bytes_frame
               (with_rx (frame_bytes OP_BYTES (mask_key s1) b ++ rest) r)
               (mask_key s1) b rest); auto.
Qed.

End Messages.

(** ** Fragmented messages of any length *)

Section Fragments.

Variable enc : pystr -> bytes.
Variable dec : bytes -> option pystr.

Lemma continuation_frames_length (ps : list bytes) :
  forall s last s',
    continuation_frames enc s ps last s' ->
    (length (rx (_stream s')) + 2 * S (length ps)
     <= length (rx (_stream s)))%nat
    /\ same_session s s'.
Proof.
  induction ps as [|p ps IH]; intros s last s' H; cbn [continuation_frames] in H.
  - apply read_frame_inv in H as (L & S1). cbn. split; [lia|exact S1].
  - destruct H as (s1 & H1 & H2).
    apply read_frame_inv in H1 as (L1 & S1).
    apply IH in H2 as (L2 & S2).
    cbn [length]. split; [lia|eauto using same_session_trans].
Qed.

Lemma continuation_frames_loop (ps : list bytes) :
  forall s last s' opcode buf,
    open s = true ->
    opcode = OP_TEXT \/ opcode = OP_BYTES ->
    continuation_frames enc s ps last s' ->
    recv_loop enc dec (S (length ps)) (Some opcode) buf s
    = Some (if opcode =? OP_TEXT
            then match dec (buf ++ concat ps ++ last) with
                 | Some t => Ret (RStr t)
                 | None => Raise UnicodeError
                 end
            else Ret (RByteArray (buf ++ concat ps ++ last)), s').
Proof.
  induction ps as [|p ps IH]; intros s last s' opcode buf Ho Hop H;
    cbn [continuation_frames] in H.
  - rewrite recv_loop_step, H by exact Ho.
    destruct Hop as [-> | ->]; cbn -[recv_loop];
      [destruct (dec (buf ++ last))|]; reflexivity.
  - destruct H as (s1 & H1 & H2).
    cbn [length]. rewrite recv_loop_step, H1 by exact Ho.
    destruct (read_frame_inv enc _ _ _ _ _ H1) as (_ & S1).
    apply same_session_fields in S1 as (O1 & _).
    assert (E : recv_loop enc dec (S (length ps)) (Some opcode) (buf ++ p) s1
                = Some (if opcode =? OP_TEXT
                        then match dec ((buf ++ p) ++ concat ps ++ last) with
                             | Some t => Ret (RStr t)
                             | None => Raise UnicodeError
                             end
                        else Ret (RByteArray ((buf ++ p) ++ concat ps ++ last)),
                        s')).
    { apply IH; [congruence|exact Hop|exact H2]. }
    cbn [concat]. rewrite <- !app_assoc in E |- *.
    destruct Hop as [-> | ->]; cbn -[recv_loop]; exact E.
Qed.

(** X9. Reassembly for any number of fragments: a first TEXT or BINARY
    frame that is not final, then CONTINUATION frames that are not final,
    then a final CONTINUATION frame, give one message, the payloads
    concatenated in arrival order: a [bytearray] for BINARY, the decoded
    text for TEXT. *)
Theorem recv_reassembles_fragments
        (s s1 s' : WebsocketClient) (opcode : Z) (p0 last : bytes)
        (ps : list bytes) :
  open s = true ->
  _read_frame enc s = (Ret (false, opcode, Some p0), s1) ->
  continuation_frames enc s1 ps last s' ->
  (opcode = OP_BYTES ->
   recv enc dec s = Some (Ret (RByteArray (p0 ++ concat ps ++ last)), s'))
  /\ (opcode = OP_TEXT ->
      forall t, dec (p0 ++ concat ps ++ last) = Some t ->
                recv enc dec s = Some (Ret (RStr t), s')).
Proof.
  intros Ho H1 Hc.
  destruct (read_frame_inv enc _ _ _ _ _ H1) as (L1 & S1).
  apply same_session_fields in S1 as (O1 & _).
  destruct (continuation_frames_length _ _ _ _ Hc) as (L2 & _).
  assert (F : opcode = OP_TEXT \/ opcode = OP_BYTES ->
              recv enc dec s
              = Some (if opcode =? OP_TEXT
                      then match dec (p0 ++ concat ps ++ last) with
                           | Some t => Ret (RStr t)
                           | None => Raise UnicodeError
                           end
                      else Ret (RByteArray (p0 ++ concat ps ++ last)), s')).
  { intros Hop. unfold recv.
    apply (recv_loop_more_fuel enc dec (S (S (length ps)))); [lia|].
    rewrite recv_loop_step, H1 by exact Ho.
    pose proof (continuation_frames_loop ps s1 last s' opcode ([] ++ p0)
                  ltac:(congruence) Hop Hc) as E.
    rewrite app_nil_l in E.
    destruct Hop as [-> | ->]; cbn -[recv_loop]; exact E. }
  split.
  - intros E. rewrite F by auto. subst. reflexivity.
  - intros E t Ht. rewrite F by auto. subst. cbn. now rewrite Ht.
Qed.

(** X10. A new data frame abandons an unfinished message: after a TEXT or
    BINARY frame that is not final, a final BINARY frame is returned on
    its own; the payload of the unfinished message is dropped without an
    error. *)
Theorem recv_new_data_frame_drops_partial
        (s s1 s2 : WebsocketClient) (opcode : Z) (p1 p2 : bytes) :
  open s = true ->
  opcode = OP_TEXT \/ opcode = OP_BYTES ->
  _read_frame enc s = (Ret (false, opcode, Some p1), s1) ->
  _read_frame enc s1 = (Ret (true, OP_BYTES, Some p2), s2) ->
  recv enc dec s = Some (Ret (RByteArray p2), s2).
Proof.
  intros Ho Hop H1 H2.
  destruct (read_frame_inv enc _ _ _ _ _ H1) as (L1 & S1).
  destruct (read_frame_inv enc _ _ _ _ _ H2) as (L2 & _).
  apply same_session_fields in S1 as (O1 & _).
  unfold recv. apply (recv_loop_more_fuel enc dec 2); [lia|].
  rewrite recv_loop_step, H1 by exact Ho.
  destruct Hop as [-> | ->]; cbn -[recv_loop];
    rewrite recv_loop_step, H2 by congruence; reflexivity.
Qed.

(** [recv]'s two locals do not matter when the next frame is not a
    CONTINUATION frame. *)
Lemma recv_loop_fresh_state (fuel : nat) (s : WebsocketClient)
      (popcode popcode' : option Z) (buf buf' : bytes) :
  (forall fin data s1, _read_frame enc s <> (Ret (fin, OP_CONT, data), s1)) ->
  recv_loop enc dec fuel popcode buf s
  = recv_loop enc dec fuel popcode' buf' s.
Proof.
  intros Hn. destruct (open s) eqn:Ho.
  2:{ destruct fuel; cbn [recv_loop]; rewrite Ho; reflexivity. }
  destruct fuel as [|fuel]; [cbn [recv_loop]; rewrite Ho; reflexivity|].
  rewrite !recv_loop_step by exact Ho.
  destruct (_read_frame enc s) as [[[[fin op] data]|e] s1] eqn:Hr;
    [|reflexivity].
  destruct (Z.eqb_spec op OP_CONT) as [->|Hne].
  - exfalso. eapply Hn. reflexivity.
  - reflexivity.
Qed.

(** X11. A PONG frame is skipped: when the frame after it is not a
    CONTINUATION frame, [recv] gives exactly what it gives on the input
    without the PONG frame. *)
Theorem recv_skips_pong
        (s s1 : WebsocketClient) (fin : bool) (d : bytes) :
  open s = true ->
  _read_frame enc s = (Ret (fin, OP_PONG, Some d), s1) ->
  (forall fin' data s2,
      _read_frame enc s1 <> (Ret (fin', OP_CONT, data), s2)) ->
  recv enc dec s = recv enc dec s1.
Proof.
  intros Ho H Hn.
  destruct (read_frame_inv enc _ _ _ _ _ H) as (L & _).
  destruct (recv_total enc dec s1) as (x & Hx).
  rewrite Hx. unfold recv in *.
  rewrite recv_loop_step, H by exact Ho. cbn -[recv_loop].
  rewrite (recv_loop_fresh_state _ s1 (Some OP_PONG) None [] [] Hn).
  apply (recv_loop_more_fuel enc dec (S (length (rx (_stream s1)))));
    [lia|exact Hx].
Qed.

End Fragments.

(** ** More on the frame codec *)

Lemma lxor_byte (a b : Z) :
  0 <= a < 256 -> 0 <= b < 256 -> 0 <= Z.lxor a b < 256.
Proof.
  intros Ha Hb.
  pose proof (Z_below_forallb
    (fun x => forallb (fun y => (0 <=? Z.lxor x y) && (Z.lxor x y <? 256))
                      (map Z.of_nat (seq 0 256)))
    256 ltac:(vm_compute; reflexivity) a Ha) as E.
  cbv beta in E.
  pose proof (Z_below_forallb _ 256 E b Hb) as F. cbv beta in F.
  apply andb_prop in F as [F1 F2]. lia.
Qed.

Lemma all_bytes_app (a b : bytes) :
  all_bytes (a ++ b) = all_bytes a && all_bytes b.
Proof. apply forallb_app. Qed.

Lemma all_bytes_pack_be (n : nat) (x : Z) : all_bytes (Struct.pack_be n x) = true.
Proof.
  induction n as [|n IH]; [reflexivity|].
  cbn [Struct.pack_be all_bytes forallb]. fold (all_bytes (Struct.pack_be n x)).
  rewrite IH, andb_true_r.
  pose proof (Z.mod_pos_bound (Z.shiftr x (8 * Z.of_nat n)) 256 ltac:(lia)).
  apply andb_true_intro. split; [apply Z.leb_le|apply Z.ltb_lt]; lia.
Qed.

Lemma all_bytes_nth (l : bytes) (i : nat) :
  all_bytes l = true -> 0 <= nth i l 0 < 256.
Proof.
  intros H. destruct (Nat.lt_ge_cases i (length l)) as [Hi|Hi].
  - unfold all_bytes in H. rewrite forallb_forall in H.
    specialize (H (nth i l 0) (nth_In l 0 Hi)).
    apply andb_prop in H as [H1 H2]. lia.
  - rewrite nth_overflow by exact Hi. lia.
Qed.

Lemma all_bytes_mask_from (key : bytes) (i : nat) (data : bytes) :
  all_bytes key = true -> all_bytes data = true ->
  all_bytes (map (fun ib => Z.lxor (snd ib) (nth (fst ib mod 4)%nat key 0))
                 (enumerate_from i data)) = true.
Proof.
  intros Hk. revert i. induction data as [|b data IH]; intros i Hd;
    [reflexivity|].
  cbn [all_bytes forallb] in Hd. apply andb_prop in Hd as [Hb Hd].
  apply andb_prop in Hb as [Hb1 Hb2].
  cbn [enumerate_from map fst snd all_bytes forallb].
  pose proof (lxor_byte b (nth (i mod 4)%nat key 0) ltac:(lia)
                (all_bytes_nth key _ Hk)) as R.
  apply andb_true_intro. split.
  - apply andb_true_intro. split; [apply Z.leb_le|apply Z.ltb_lt]; lia.
  - apply IH. exact Hd.
Qed.

Lemma header_bytes_all_bytes (opcode len : Z) :
  all_bytes (header_bytes opcode len) = true.
Proof.
  unfold header_bytes.
  assert (B : forall x, all_bytes [x mod 256] = true)
    by (intros x; apply (all_bytes_pack_be 1 x)).
  destruct (len <? 126); [|destruct (len <? 65536)].
  - change [Z.lor 128 opcode mod 256; Z.lor 128 len mod 256]
      with ([Z.lor 128 opcode mod 256] ++ [Z.lor 128 len mod 256]).
    now rewrite all_bytes_app, !B.
  - change ([Z.lor 128 opcode mod 256; Z.lor 128 126 mod 256] ++ Struct.pack_H len)
      with ([Z.lor 128 opcode mod 256] ++ [Z.lor 128 126 mod 256]
            ++ Struct.pack_be 2 len).
    now rewrite !all_bytes_app, !B, all_bytes_pack_be.
  - change ([Z.lor 128 opcode mod 256; Z.lor 128 127 mod 256] ++ Struct.pack_Q len)
      with ([Z.lor 128 opcode mod 256] ++ [Z.lor 128 127 mod 256]
            ++ Struct.pack_be 8 len).
    now rewrite !all_bytes_app, !B, all_bytes_pack_be.
Qed.

Lemma header_bytes_length (opcode len : Z) :
  length (header_bytes opcode len)
  = if len <? 126 then 2%nat else if len <? 65536 then 4%nat else 10%nat.
Proof.
  unfold header_bytes.
  destruct (len <? 126); [|destruct (len <? 65536)]; reflexivity.
Qed.

(** X12. What [_write_frame] puts in the write buffer is a [bytes]
    value when the payload is one: every integer written is in 0..255,
    whatever the opcode and the random value drawn for the key. *)
Theorem write_frame_writes_bytes
        (opcode : Z) (data : bytes) (s : WebsocketClient) :
  all_bytes data = true ->
  Z.of_nat (length data) < 2 ^ 64 ->
  all_bytes (written s (snd (_write_frame opcode data s))) = true.
Proof.
  intros Hd Hl. rewrite write_frame_ok by exact Hl. cbn [snd].
  rewrite (written_app s _ (frame_bytes opcode (mask_key s) data))
    by reflexivity.
  unfold frame_bytes. rewrite !all_bytes_app, header_bytes_all_bytes.
  assert (Hk : all_bytes (mask_key s) = true) by apply all_bytes_pack_be.
  rewrite Hk. cbn [andb]. apply all_bytes_mask_from; assumption.
Qed.

(** X13. The size of a frame: [_write_frame] adds to the payload a
    header and key of 6 bytes when the payload is shorter than 126 bytes,
    of 8 bytes when it is shorter than 65536 bytes, of 14 bytes
    otherwise. *)
Theorem write_frame_overhead
        (opcode : Z) (data : bytes) (s : WebsocketClient) :
  Z.of_nat (length data) < 2 ^ 64 ->
  length (written s (snd (_write_frame opcode data s)))
  = Nat.add (if Z.of_nat (length data) <? 126 then 6%nat
             else if Z.of_nat (length data) <? 65536 then 8%nat else 14%nat)
            (length data).
Proof.
  intros Hl. rewrite write_frame_ok by exact Hl. cbn [snd].
  rewrite (written_app s _ (frame_bytes opcode (mask_key s) data))
    by reflexivity.
  unfold frame_bytes.
  rewrite !length_app, header_bytes_length, mask_payload_length, mask_key_length.
  destruct (Z.of_nat (length data) <? 126);
    [|destruct (Z.of_nat (length data) <? 65536)]; lia.
Qed.

Lemma byte2_unmasked (l : Z) :
  0 <= l < 128 ->
  (Z.land l (Z.shiftl 1 7) =? 0) = true /\ Z.land l 127 = l.
Proof.
  intros H.
  pose proof (Z_below_forallb
    (fun o => (Z.land o (Z.shiftl 1 7) =? 0) && (Z.land o 127 =? o))
    128 eq_refl l H) as E.
  cbv beta in E. apply andb_prop in E as [E1 E2].
  apply Z.eqb_eq in E2. auto.
Qed.

Lemma on_stream_read_eof (s : WebsocketClient) (n : Z) :
  0 < n <= heap (_stream s) ->
  Z.of_nat (length (rx (_stream s))) < n ->
  on_stream (StreamOps.readexactly n) s = (Raise EOFError, with_rx [] s).
Proof.
  intros Hn Hl. unfold on_stream, StreamOps.readexactly.
  destruct (Z.eqb_spec n 0); [lia|].
  destruct (Z.ltb_spec (heap (_stream s)) n); [lia|].
  destruct (Z.leb_spec n (Z.of_nat (length (rx (_stream s))))); [lia|].
  reflexivity.
Qed.

Lemma bind_read_eof {B} (s : WebsocketClient) (n : Z)
      (k : bytes -> M WebsocketClient B) :
  0 < n <= heap (_stream s) ->
  Z.of_nat (length (rx (_stream s))) < n ->
  bind (on_stream (StreamOps.readexactly n)) k s
  = (Raise EOFError, with_rx [] s).
Proof. intros. unfold bind. now rewrite on_stream_read_eof. Qed.

Section ServerFrames.

Variable enc : pystr -> bytes.

(** X14. Frames as a server sends them, not masked: [_read_frame]
    decodes the three forms of the length (7 bits, 126 then 16 bits, 127
    then 64 bits), gives FIN and the opcode from the first byte and the
    payload as it is on the wire, and stops after the payload.  The 16-bit
    and 64-bit forms are accepted for any length they can carry, also one
    that would fit a shorter form. *)
Theorem read_frame_unmasked
        (r : WebsocketClient) (b1 len : Z) (hdr data rest : bytes) :
  8 <= heap (_stream r) ->
  len <= heap (_stream r) ->
  Z.of_nat (length data) = len ->
  (hdr = [b1; len] /\ len < 126)
  \/ (hdr = [b1; 126] ++ Struct.pack_H len /\ len < 65536)
  \/ (hdr = [b1; 127] ++ Struct.pack_Q len /\ len < 2 ^ 64) ->
  rx (_stream r) = hdr ++ data ++ rest ->
  _read_frame enc r
  = (Ret (negb (Z.land b1 0x80 =? 0), Z.land b1 0x0f, Some data),
     with_rx rest r).
Proof.
  intros H8 Hfit Hlen Hhdr Hrx.
  assert (Hpos : 0 <= len) by lia.
  assert (Hh : _read_frame_header r
               = (Ret (negb (Z.land b1 0x80 =? 0), Z.land b1 0x0f, false,
                       len, []), with_rx (data ++ rest) r)).
  { unfold _read_frame_header, Struct.pack_H, Struct.pack_Q in *.
    destruct Hhdr as [(-> & Hl)|[(-> & Hl)|(-> & Hl)]].
    - destruct (byte2_unmasked len ltac:(lia)) as (C1 & C2).
      rewrite (read_bind r [b1; len] (data ++ rest) 2) by (auto; lia).
      cbn [nth]. rewrite C1, C2.
      destruct (Z.eqb_spec len 126); [lia|].
      destruct (Z.eqb_spec len 127); [lia|].
      reflexivity.
    - rewrite <- app_assoc in Hrx.
      rewrite (read_bind r [b1; 126] (Struct.pack_be 2 len ++ data ++ rest) 2)
        by (auto; lia).
      cbn [nth]. change (Z.land 126 127 =? 126) with true.
      change (Z.land 126 (Z.shiftl 1 7) =? 0) with true.
      cbv iota. unfold bind at 1.
      rewrite (read_bind _ (Struct.pack_be 2 len) (data ++ rest) 2)
        by (cbn; auto; lia).
      unfold ret at 1.
      rewrite unpack_pack_be by (change (256 ^ Z.of_nat 2) with 65536; lia).
      reflexivity.
    - rewrite <- app_assoc in Hrx.
      rewrite (read_bind r [b1; 127] (Struct.pack_be 8 len ++ data ++ rest) 2)
        by (auto; lia).
      cbn [nth]. change (Z.land 127 127 =? 126) with false.
      change (Z.land 127 127 =? 127) with true.
      change (Z.land 127 (Z.shiftl 1 7) =? 0) with true.
      cbv iota. unfold bind at 1.
      rewrite (read_bind _ (Struct.pack_be 8 len) (data ++ rest) 8)
        by (cbn; auto; lia).
      unfold ret at 1.
      rewrite unpack_pack_be by (change (256 ^ Z.of_nat 8) with (2 ^ 64); lia).
      reflexivity. }
  unfold _read_frame. unfold bind at 1. rewrite Hh.
  rewrite (on_stream_read _ data rest) by (cbn; auto; lia).
  reflexivity.
Qed.

(** X15. The reserved bits of the first byte are not looked at: with
    memory for the two header bytes, a frame whose first byte has any of
    the bits 0x70 set is read exactly as the frame with these bits
    cleared. *)
Theorem read_frame_ignores_reserved_bits
        (s : WebsocketClient) (b1 : Z) (r : bytes) :
  2 <= heap (_stream s) ->
  _read_frame enc (with_rx (b1 :: r) s)
  = _read_frame enc (with_rx (Z.land b1 0x8f :: r) s).
Proof.
  intros H2.
  assert (E80 : Z.land (Z.land b1 0x8f) 0x80 = Z.land b1 0x80)
    by (rewrite <- Z.land_assoc; reflexivity).
  assert (E0f : Z.land (Z.land b1 0x8f) 0x0f = Z.land b1 0x0f)
    by (rewrite <- Z.land_assoc; reflexivity).
  assert (Hh : _read_frame_header (with_rx (b1 :: r) s)
               = _read_frame_header (with_rx (Z.land b1 0x8f :: r) s)).
  { unfold _read_frame_header. destruct r as [|b2 r].
    - rewrite !bind_read_eof by (cbn; lia). reflexivity.
    - rewrite (read_bind (with_rx (b1 :: b2 :: r) s) [b1; b2] r 2)
        by (cbn; auto).
      rewrite (read_bind (with_rx (Z.land b1 0x8f :: b2 :: r) s)
                 [Z.land b1 0x8f; b2] r 2) by (cbn; auto).
      cbn [nth]. rewrite E80, E0f. reflexivity. }
  unfold _read_frame. unfold bind. rewrite Hh. reflexivity.
Qed.

End ServerFrames.

(** ** The handshake, when the status line is accepted *)

Lemma split_line_app (body rest : bytes) :
  no_newline body = true ->
  StreamOps.split_line (body ++ 10 :: rest) = (body ++ [10], rest).
Proof.
  induction body as [|c body IH]; intros H; [reflexivity|].
  cbn [no_newline forallb] in H. apply andb_prop in H as [Hc H].
  apply negb_true_iff in Hc.
  cbn [app StreamOps.split_line]. rewrite Hc, (IH H). reflexivity.
Qed.

Lemma split_line_length (l : bytes) :
  (length (fst (StreamOps.split_line l)) + length (snd (StreamOps.split_line l))
   = length l)%nat.
Proof.
  induction l as [|c l IH]; [reflexivity|].
  cbn [StreamOps.split_line]. destruct (c =? 10); [reflexivity|].
  destruct (StreamOps.split_line l) as [line rest]. cbn in *. lia.
Qed.

Lemma skip_headers_done (fuel : nat) (st : Stream) :
  skip_headers fuel [] st = Some (Ret tt, st).
Proof. destruct fuel; reflexivity. Qed.

Lemma skip_headers_block (bodies : list bytes) :
  forall fuel c header st ending,
    rx st = header_lines bodies ++ block_end ending ->
    forallb header_body bodies = true ->
    (length bodies < fuel)%nat ->
    skip_headers fuel (c :: header) st
    = Some (Ret tt, set_rx (after_block ending) st).
Proof.
  induction bodies as [|b bodies IH]; intros fuel c header st ending Hrx Hb Hf;
    (destruct fuel as [|fuel]; [lia|]);
    cbn [skip_headers]; unfold StreamOps.readline; rewrite Hrx.
  - destruct ending as [rest|]; cbn [header_lines flat_map app block_end].
    + reflexivity.
    + cbn. apply skip_headers_done.
  - cbn [forallb] in Hb. apply andb_prop in Hb as [Hb1 Hb].
    unfold header_body in Hb1. apply andb_prop in Hb1 as [Hn Hne].
    apply negb_true_iff in Hne.
    cbn [header_lines flat_map]. fold (header_lines bodies).
    rewrite <- !app_assoc. cbn [app].
    rewrite split_line_app by exact Hn. rewrite Hne.
    destruct b as [|c' b]; cbn [app];
      (rewrite (IH fuel _ _ _ ending); [reflexivity|reflexivity|exact Hb|];
       cbn [length] in Hf; lia).
Qed.

Lemma skip_headers_total (fuel : nat) :
  forall header st,
    (length (rx st) < fuel)%nat ->
    exists r, skip_headers fuel header st = Some r.
Proof.
  induction fuel as [|fuel IH]; intros header st Hf; [lia|].
  destruct header as [|c header]; [cbn; eauto|].
  cbn [skip_headers]. unfold StreamOps.readline.
  pose proof (split_line_length (rx st)) as L.
  destruct (StreamOps.split_line (rx st)) as [line rest]. cbn [fst snd] in L.
  destruct (bytes_eqb line CRLF); [eauto|].
  destruct line as [|c' line].
  - rewrite skip_headers_done. eauto.
  - apply IH. cbn in L |- *. lia.
Qed.

Section HandshakeAccepted.

Variable b2a_base64 : bytes -> bytes.

(** X16. A response that is accepted: when the url matched, the first
    line starts with "HTTP/1.1 101 " and header lines follow, [connect]
    returns an open session.  It has drained the request, has read the
    header lines up to and including the blank line, whatever they say
    (no header is checked, [Sec-WebSocket-Accept] included), and has left
    the bytes after the blank line to be read as frames.  When the input
    ends before a blank line, the session is returned all the same, with
    nothing left to read. *)
Theorem connect_accepts_101
        (g : url_match) (url : bytes) (token : option bytes)
        (stream : Stream) (rnd : list Z)
        (status : bytes) (bodies : list bytes) (ending : option bytes) :
  bytes_eqb (group1 g) (bytes_of_string "ws")
  || bytes_eqb (group1 g) (bytes_of_string "wss") = true ->
  rx stream = status ++ 10 :: header_lines bodies ++ block_end ending ->
  no_newline status = true ->
  startswith (drop_last 2 (status ++ [10])) (bytes_of_string "HTTP/1.1 101 ")
  = true ->
  forallb header_body bodies = true ->
  exists c req,
    connect b2a_base64 (Some g) url token stream rnd = Some (Ret c, _stream c)
    /\ open c = true
    /\ rx (_stream c) = after_block ending
    /\ out_buf (_stream c) = []
    /\ wire (_stream c) = wire stream ++ out_buf stream ++ req
    /\ closed (_stream c) = closed stream
    /\ random_state c = snd (getrandbits_n 16 8 rnd).
Proof.
  intros Hs Hrx Hn Hst Hb. unfold connect. rewrite Hs. cbn [negb].
  destruct (getrandbits_n 16 8 rnd) as [rand16 rnd']. cbn [snd].
  destruct (send_request_writes (group4 g) (group2 g)
              match group3 g with
              | Some p => p
              | None =>
                  if bytes_eqb (group1 g) (bytes_of_string "ws")
                  then 80 else 443
              end
              (drop_last 1 (b2a_base64 rand16)) url token stream)
    as (req & Hreq).
  unfold bind at 1. rewrite Hreq.
  unfold bind, StreamOps.drain, StreamOps.readline, ret, set_rx.
  cbn [rx out_buf wire closed heap].
  rewrite Hrx, split_line_app by exact Hn.
  rewrite Hst. cbn [negb].
  assert (Hne : exists c h, drop_last 2 (status ++ [10]) = c :: h).
  { destruct (drop_last 2 (status ++ [10])) as [|c h]; [discriminate|eauto]. }
  destruct Hne as (c & h & Ehdr). rewrite Ehdr.
  rewrite (skip_headers_block bodies _ c h _ ending);
    [|reflexivity|exact Hb|].
  - match goal with
    | |- exists c _, Some (Ret ?x, _) = _ /\ _ => exists x, req
    end.
    split; [reflexivity|]. cbn. auto 10.
  - cbn [rx]. rewrite length_app.
    assert (length bodies <= length (header_lines bodies))%nat.
    { clear. induction bodies as [|b bs IH]; [cbn; lia|].
      cbn [header_lines flat_map]. fold (header_lines bs).
      rewrite !length_app. cbn [length]. lia. }
    lia.
Qed.

(** X17. On every response, a finite run of bytes and then the end of
    the stream, [connect] comes back: the loop that skips the response
    headers ends at the blank line or at the end of the input. *)
Theorem connect_total
        (m : option url_match) (url : bytes) (token : option bytes)
        (stream : Stream) (rnd : list Z) :
  exists r, connect b2a_base64 m url token stream rnd = Some r.
Proof.
  unfold connect. destruct m as [g|]; [|eauto].
  destruct (negb _); [eauto|].
  destruct (getrandbits_n 16 8 rnd) as [rand16 rnd'].
  match goal with
  | |- context [match ?x stream with _ => _ end] =>
      destruct (x stream) as [[header|e] st]
  end; [|eauto].
  destruct (negb _); [eauto|].
  destruct (skip_headers_total (S (length (rx st))) header st ltac:(lia))
    as ([[u|e] st'] & E); rewrite E; eauto.
Qed.

End HandshakeAccepted.

(** ** The local close sequence *)

Section LocalClose.

Variable enc : pystr -> bytes.

(** X18. Closing from this side: on an open session [close(code,
    reason)] followed by [wait_closed()] puts on the wire, after what was
    pending, one CLOSE frame whose payload is the code in two big-endian
    bytes and the encoded reason, marks the session closed and closes the
    stream.  Nothing is read: the peer's CLOSE frame is not waited for. *)
Theorem local_close_sequence
        (s : WebsocketClient) (code : Z) (reason : pystr) :
  open s = true ->
  0 <= code < 65536 ->
  Z.of_nat (length (Struct.pack_H code ++ enc reason)) < 2 ^ 64 ->
  exists s' w,
    (close enc code reason ;;; wait_closed) s = (Ret tt, s')
    /\ open s' = false
    /\ closed (_stream s') = true
    /\ out_buf (_stream s') = []
    /\ rx (_stream s') = rx (_stream s)
    /\ wire (_stream s') = wire (_stream s) ++ out_buf (_stream s) ++ w
    /\ decode_wire enc w
       = (Ret (true, OP_CLOSE, Some (Struct.pack_H code ++ enc reason)), [])
    /\ Struct.unpack_be (firstn 2 (Struct.pack_H code ++ enc reason)) = code.
Proof.
  intros Ho Hc Hl. eexists.
  exists (frame_bytes OP_CLOSE (mask_key s) (Struct.pack_H code ++ enc reason)).
  unfold bind at 1. rewrite close_open by assumption.
  cbn -[frame_bytes mask_key Struct.pack_H decode_wire Struct.unpack_be firstn].
  repeat split.
  - apply decode_wire_of_written; [unfold OP_CLOSE; lia|exact Hl|reflexivity].
  - change (firstn 2 (Struct.pack_H code ++ enc reason))
      with (Struct.pack_be 2 code).
    apply unpack_pack_be. change (256 ^ Z.of_nat 2) with 65536. lia.
Qed.

End LocalClose.

(** ** The further properties at concrete inputs *)

Lemma recv_none_closes_session_witness :
  exists s',
    recv ascii_encode ascii_decode (session_on [0x81]) = Some (Ret RNone, s')
    /\ open s' = false
    /\ recv ascii_encode ascii_decode s' = Some (Ret RNone, s').
Proof.
  eexists. split; [vm_compute; reflexivity|].
  destruct (recv_none_closes_session ascii_encode ascii_decode
              (session_on [0x81]) _ ltac:(vm_compute; reflexivity))
    as (H1 & H2 & _).
  split; [exact H1|exact H2].
Defined.

Lemma recv_message_keeps_session_open_witness :
  exists s',
    recv ascii_encode ascii_decode (session_on [0x82; 0x01; 0x07])
    = Some (Ret (RByteArray [0x07]), s')
    /\ RByteArray [0x07] <> RNone
    /\ open s' = true
    /\ closed (_stream s') = false.
Proof.
  eexists. split; [vm_compute; reflexivity|].
  assert (N : RByteArray [0x07] <> RNone) by discriminate.
  split; [exact N|].
  exact (recv_message_keeps_session_open ascii_encode ascii_decode
           (session_on [0x82; 0x01; 0x07]) _ _
           ltac:(vm_compute; reflexivity) N).
Defined.

Lemma recv_leaves_write_buffer_empty_witness :
  exists r s',
    recv ascii_encode ascii_decode
      (session_on [0x89; 0x01; 0x70; 0x82; 0x01; 0x07])
    = Some (r, s')
    /\ out_buf (_stream (session_on [0x89; 0x01; 0x70; 0x82; 0x01; 0x07])) = []
    /\ out_buf (_stream s') = [].
Proof.
  eexists. eexists. split; [vm_compute; reflexivity|].
  split; [reflexivity|].
  exact (recv_leaves_write_buffer_empty ascii_encode ascii_decode
           (session_on [0x89; 0x01; 0x70; 0x82; 0x01; 0x07]) _ _
           ltac:(vm_compute; reflexivity) eq_refl).
Defined.

Lemma recv_eof_closes_silently_witness :
  let s := session_on [0x81; 0x05; 0x48] in
  open s = true
  /\ _read_frame ascii_encode s = (Raise EOFError, with_rx [] s)
  /\ exists s',
       recv ascii_encode ascii_decode s = Some (Ret RNone, s')
       /\ open s' = false
       /\ wire (_stream s') = wire (_stream s).
Proof.
  intros s.
  assert (Ho : open s = true) by reflexivity.
  assert (H : _read_frame ascii_encode s = (Raise EOFError, with_rx [] s))
    by reflexivity.
  repeat (split; [assumption|]).
  destruct (recv_eof_closes_silently ascii_encode ascii_decode
              s (with_rx [] s) 0%nat None [] Ho H)
    as (s' & _ & R & F1 & _ & F3 & _).
  exists s'. repeat split; assumption.
Defined.

Lemma recv_unknown_opcode_raises_witness :
  let s := session_on [0x83; 0x01; 0x07] in
  open s = true
  /\ _read_frame ascii_encode s = (Ret (true, 3, Some [0x07]), with_rx [] s)
  /\ known_opcode 3 = false
  /\ recv ascii_encode ascii_decode s
     = Some (Raise (ValueError [VInt 3]), with_rx [] s).
Proof.
  intros s.
  assert (Ho : open s = true) by reflexivity.
  assert (H : _read_frame ascii_encode s
              = (Ret (true, 3, Some [0x07]), with_rx [] s)) by reflexivity.
  assert (K : known_opcode 3 = false) by reflexivity.
  repeat (split; [assumption|]).
  exact (proj1 (proj2 (recv_unknown_opcode_raises ascii_encode ascii_decode
                         s (with_rx [] s) true 3 (Some [0x07]) 0%nat None []
                         Ho H K))).
Defined.

Lemma send_recv_roundtrip_bytes_witness :
  let s := session_on [] in
  let b := [0x07; 0x08] in
  let r := session_on (wire (_stream (snd (send ascii_encode (PyBytes b) s)))
                       ++ [0x99]) in
  open s = true
  /\ Z.of_nat (length b) < 2 ^ 64
  /\ open r = true
  /\ 8 <= heap (_stream r)
  /\ Z.of_nat (length b) <= heap (_stream r)
  /\ recv ascii_encode ascii_decode r
     = Some (Ret (RByteArray b), with_rx [0x99] r).
Proof.
  intros s b r.
  assert (Ho : open s = true) by reflexivity.
  assert (Hl : Z.of_nat (length b) < 2 ^ 64) by reflexivity.
  assert (Hr : open r = true) by reflexivity.
  assert (H8 : 8 <= heap (_stream r)) by (vm_compute; discriminate).
  assert (Hf : Z.of_nat (length b) <= heap (_stream r))
    by (vm_compute; discriminate).
  repeat (split; [assumption|]).
  destruct (send_recv_roundtrip_bytes ascii_encode ascii_decode
              s r b [0x99] Ho Hl Hr H8 Hf) as (s' & w & S & W & R).
  apply R. unfold r. rewrite S. cbn [snd].
  unfold session_on at 1. cbn [rx _stream]. rewrite W. reflexivity.
Defined.

Lemma send_recv_roundtrip_text_witness :
  let s := session_on [] in
  let t := [0x68; 0x69] in
  let r := session_on (wire (_stream (snd (send ascii_encode (PyStr t) s)))) in
  ascii_decode (ascii_encode t) = Some t
  /\ open s = true
  /\ Z.of_nat (length (ascii_encode t)) < 2 ^ 64
  /\ open r = true
  /\ 8 <= heap (_stream r)
  /\ Z.of_nat (length (ascii_encode t)) <= heap (_stream r)
  /\ recv ascii_encode ascii_decode r = Some (Ret (RStr t), with_rx [] r).
Proof.
  intros s t r.
  assert (Hc : ascii_decode (ascii_encode t) = Some t) by reflexivity.
  assert (Ho : open s = true) by reflexivity.
  assert (Hl : Z.of_nat (length (ascii_encode t)) < 2 ^ 64) by reflexivity.
  assert (Hr : open r = true) by reflexivity.
  assert (H8 : 8 <= heap (_stream r)) by (vm_compute; discriminate).
  assert (Hf : Z.of_nat (length (ascii_encode t)) <= heap (_stream r))
    by (vm_compute; discriminate).
  repeat (split; [assumption|]).
  destruct (send_recv_roundtrip_text ascii_encode ascii_decode
              s r t [] Hc Ho Hl Hr H8 Hf) as (s' & w & S & W & R).
  apply R. unfold r. rewrite S. cbn [snd].
  unfold session_on at 1. cbn [rx _stream]. rewrite W.
  now rewrite app_nil_r.
Defined.

Lemma two_sends_arrive_in_order_witness :
  let s := session_on [] in
  let a := [0x01] in
  let b := [0x02; 0x03] in
  let s1 := snd (send ascii_encode (PyBytes a) s) in
  let s2 := snd (send ascii_encode (PyBytes b) s1) in
  let r := session_on (wire (_stream s2)) in
  open s = true
  /\ Z.of_nat (length a) < 2 ^ 64
  /\ Z.of_nat (length b) < 2 ^ 64
  /\ open r = true
  /\ 8 <= heap (_stream r)
  /\ Z.of_nat (length a) <= heap (_stream r)
  /\ Z.of_nat (length b) <= heap (_stream r)
  /\ exists r1,
       recv ascii_encode ascii_decode r = Some (Ret (RByteArray a), r1)
       /\ recv ascii_encode ascii_decode r1
          = Some (Ret (RByteArray b), with_rx [] r).
Proof.
  intros s a b s1 s2 r.
  assert (Ho : open s = true) by reflexivity.
  assert (Ha : Z.of_nat (length a) < 2 ^ 64) by reflexivity.
  assert (Hb : Z.of_nat (length b) < 2 ^ 64) by reflexivity.
  assert (Hr : open r = true) by reflexivity.
  assert (H8 : 8 <= heap (_stream r)) by (vm_compute; discriminate).
  assert (Hfa : Z.of_nat (length a) <= heap (_stream r))
    by (vm_compute; discriminate).
  assert (Hfb : Z.of_nat (length b) <= heap (_stream r))
    by (vm_compute; discriminate).
  repeat (split; [assumption|]).
  destruct (two_sends_arrive_in_order ascii_encode ascii_decode
              s r a b [] Ho Ha Hb Hr H8 Hfa Hfb)
    as (t1 & t2 & w1 & w2 & S1 & S2 & W & R).
  assert (Hrx : rx (_stream r) = w1 ++ w2 ++ []).
  { unfold r, s2, s1. rewrite S1. cbn [snd]. rewrite S2. cbn [snd].
    unfold session_on at 1. cbn [rx _stream]. rewrite W, app_nil_r.
    reflexivity. }
  destruct (R Hrx) as (R1 & R2).
  eexists. split; [exact R1|exact R2].
Defined.

Lemma recv_reassembles_fragments_witness :
  let s := session_on [0x02; 0x01; 0x01; 0x00; 0x01; 0x02; 0x00; 0x01; 0x03;
                       0x00; 0x01; 0x04; 0x80; 0x01; 0x05] in
  let s1 := with_rx [0x00; 0x01; 0x02; 0x00; 0x01; 0x03;
                     0x00; 0x01; 0x04; 0x80; 0x01; 0x05] s in
  open s = true
  /\ _read_frame ascii_encode s = (Ret (false, OP_BYTES, Some [0x01]), s1)
  /\ continuation_frames ascii_encode s1 [[0x02]; [0x03]; [0x04]] [0x05]
       (with_rx [] s)
  /\ recv ascii_encode ascii_decode s
     = Some (Ret (RByteArray [0x01; 0x02; 0x03; 0x04; 0x05]), with_rx [] s).
Proof.
  intros s s1.
  assert (Ho : open s = true) by reflexivity.
  assert (H1 : _read_frame ascii_encode s
               = (Ret (false, OP_BYTES, Some [0x01]), s1)) by reflexivity.
  assert (Hc : continuation_frames ascii_encode s1 [[0x02]; [0x03]; [0x04]]
                 [0x05] (with_rx [] s)).
  { cbn [continuation_frames].
    eexists. split; [reflexivity|].
    eexists. split; [reflexivity|].
    eexists. split; [reflexivity|]. reflexivity. }
  repeat (split; [assumption|]).
  exact (proj1 (recv_reassembles_fragments ascii_encode ascii_decode
                  s s1 (with_rx [] s) OP_BYTES [0x01] [0x05]
                  [[0x02]; [0x03]; [0x04]] Ho H1 Hc) eq_refl).
Defined.

Lemma recv_new_data_frame_drops_partial_witness :
  let s := session_on [0x01; 0x01; 0x61; 0x82; 0x01; 0x07] in
  let s1 := with_rx [0x82; 0x01; 0x07] s in
  open s = true
  /\ (OP_TEXT = OP_TEXT \/ OP_TEXT = OP_BYTES)
  /\ _read_frame ascii_encode s = (Ret (false, OP_TEXT, Some [0x61]), s1)
  /\ _read_frame ascii_encode s1
     = (Ret (true, OP_BYTES, Some [0x07]), with_rx [] s)
  /\ recv ascii_encode ascii_decode s
     = Some (Ret (RByteArray [0x07]), with_rx [] s).
Proof.
  intros s s1.
  assert (Ho : open s = true) by reflexivity.
  assert (Hop : OP_TEXT = OP_TEXT \/ OP_TEXT = OP_BYTES) by (left; reflexivity).
  assert (H1 : _read_frame ascii_encode s
               = (Ret (false, OP_TEXT, Some [0x61]), s1)) by reflexivity.
  assert (H2 : _read_frame ascii_encode s1
               = (Ret (true, OP_BYTES, Some [0x07]), with_rx [] s))
    by reflexivity.
  repeat (split; [assumption|]).
  exact (recv_new_data_frame_drops_partial ascii_encode ascii_decode
           s s1 (with_rx [] s) OP_TEXT [0x61] [0x07] Ho Hop H1 H2).
Defined.

Lemma recv_skips_pong_witness :
  let s := session_on [0x8a; 0x01; 0x70; 0x82; 0x01; 0x07] in
  let s1 := with_rx [0x82; 0x01; 0x07] s in
  open s = true
  /\ _read_frame ascii_encode s = (Ret (true, OP_PONG, Some [0x70]), s1)
  /\ recv ascii_encode ascii_decode s = recv ascii_encode ascii_decode s1
  /\ recv ascii_encode ascii_decode s1
     = Some (Ret (RByteArray [0x07]), with_rx [] s).
Proof.
  intros s s1.
  assert (Ho : open s = true) by reflexivity.
  assert (H : _read_frame ascii_encode s
              = (Ret (true, OP_PONG, Some [0x70]), s1)) by reflexivity.
  repeat (split; [assumption|]).
  split; [|reflexivity].
  apply (recv_skips_pong ascii_encode ascii_decode s s1 true [0x70] Ho H).
  intros fin' data s2 E. vm_compute in E. discriminate E.
Defined.

Lemma write_frame_writes_bytes_witness :
  let s := session_on [] in
  all_bytes [0x00; 0x7f; 0xff] = true
  /\ Z.of_nat (length [0x00; 0x7f; 0xff]) < 2 ^ 64
  /\ all_bytes (written s (snd (_write_frame OP_BYTES [0x00; 0x7f; 0xff] s)))
     = true.
Proof.
  intros s.
  assert (Hd : all_bytes [0x00; 0x7f; 0xff] = true) by reflexivity.
  assert (Hl : Z.of_nat (length [0x00; 0x7f; 0xff]) < 2 ^ 64) by reflexivity.
  repeat (split; [assumption|]).
  exact (write_frame_writes_bytes OP_BYTES [0x00; 0x7f; 0xff] s Hd Hl).
Defined.

Lemma write_frame_overhead_witness :
  let s := session_on [] in
  Z.of_nat (length (repeat 0 200)) < 2 ^ 64
  /\ length (written s (snd (_write_frame OP_BYTES (repeat 0 200) s)))
     = 208%nat.
Proof.
  intros s.
  assert (Hl : Z.of_nat (length (repeat 0 200)) < 2 ^ 64)
    by (vm_compute; reflexivity).
  split; [assumption|].
  rewrite (write_frame_overhead OP_BYTES (repeat 0 200) s Hl).
  vm_compute. reflexivity.
Defined.

Lemma read_frame_unmasked_witness :
  let r := session_on [0x82; 126; 0x00; 0x02; 0x07; 0x08; 0x99] in
  8 <= heap (_stream r)
  /\ 2 <= heap (_stream r)
  /\ Z.of_nat (length [0x07; 0x08]) = 2
  /\ ([0x82; 126; 0x00; 0x02] = [0x82; 126] ++ Struct.pack_H 2 /\ 2 < 65536)
  /\ rx (_stream r) = [0x82; 126; 0x00; 0x02] ++ [0x07; 0x08] ++ [0x99]
  /\ _read_frame ascii_encode r
     = (Ret (true, OP_BYTES, Some [0x07; 0x08]), with_rx [0x99] r).
Proof.
  intros r.
  assert (H8 : 8 <= heap (_stream r)) by (vm_compute; discriminate).
  assert (H2 : 2 <= heap (_stream r)) by (vm_compute; discriminate).
  assert (Hl : Z.of_nat (length [0x07; 0x08]) = 2) by reflexivity.
  assert (Hh : [0x82; 126; 0x00; 0x02] = [0x82; 126] ++ Struct.pack_H 2
               /\ 2 < 65536) by (split; reflexivity).
  assert (Hrx : rx (_stream r)
                = [0x82; 126; 0x00; 0x02] ++ [0x07; 0x08] ++ [0x99])
    by reflexivity.
  repeat (split; [assumption|]).
  exact (read_frame_unmasked ascii_encode r 0x82 2 [0x82; 126; 0x00; 0x02]
           [0x07; 0x08] [0x99] H8 H2 Hl (or_intror (or_introl Hh)) Hrx).
Defined.

Lemma read_frame_ignores_reserved_bits_witness :
  let s := session_on [] in
  2 <= heap (_stream s)
  /\ _read_frame ascii_encode (with_rx [0xf2; 0x01; 0x07] s)
     = _read_frame ascii_encode (with_rx [0x82; 0x01; 0x07] s).
Proof.
  intros s.
  assert (H2 : 2 <= heap (_stream s)) by (vm_compute; discriminate).
  split; [assumption|].
  exact (read_frame_ignores_reserved_bits ascii_encode s 0xf2
           [0x01; 0x07] H2).
Defined.

Lemma connect_accepts_101_witness :
  let stream :=
    mkStream (bytes_of_string "HTTP/1.1 101 Switching Protocols" ++ [13; 10]
              ++ bytes_of_string "Upgrade: websocket" ++ [13; 10]
              ++ [13; 10] ++ [0x82; 0x01; 0x07])
             [] [] false 4096 in
  let g := mkMatch (bytes_of_string "ws") (bytes_of_string "example.com")
                   None None in
  exists c,
    connect base64_line (Some g) (bytes_of_string "ws://example.com") None
            stream []
    = Some (Ret c, _stream c)
    /\ open c = true
    /\ rx (_stream c) = [0x82; 0x01; 0x07].
Proof.
  intros stream g.
  destruct (connect_accepts_101 base64_line g
              (bytes_of_string "ws://example.com") None stream []
              (bytes_of_string "HTTP/1.1 101 Switching Protocols" ++ [13])
              [bytes_of_string "Upgrade: websocket" ++ [13]]
              (Some [0x82; 0x01; 0x07])
              eq_refl eq_refl eq_refl eq_refl eq_refl)
    as (c & req & H & Ho & Hrx & _).
  exists c. repeat split; assumption.
Defined.

Lemma local_close_sequence_witness :
  let s := session_on [0x88; 0x00] in
  open s = true
  /\ 0 <= CLOSE_GOING_AWAY < 65536
  /\ Z.of_nat (length (Struct.pack_H CLOSE_GOING_AWAY
                       ++ ascii_encode [0x62; 0x79; 0x65])) < 2 ^ 64
  /\ exists s' w,
       (close ascii_encode CLOSE_GOING_AWAY [0x62; 0x79; 0x65] ;;; wait_closed) s
       = (Ret tt, s')
       /\ closed (_stream s') = true
       /\ rx (_stream s') = [0x88; 0x00]
       /\ wire (_stream s') = w
       /\ decode_wire ascii_encode w
          = (Ret (true, OP_CLOSE,
                  Some (Struct.pack_H CLOSE_GOING_AWAY ++ [0x62; 0x79; 0x65])),
             []).
Proof.
  intros s.
  assert (Ho : open s = true) by reflexivity.
  assert (Hc : 0 <= CLOSE_GOING_AWAY < 65536) by (unfold CLOSE_GOING_AWAY; lia).
  assert (Hl : Z.of_nat (length (Struct.pack_H CLOSE_GOING_AWAY
                                 ++ ascii_encode [0x62; 0x79; 0x65])) < 2 ^ 64)
    by reflexivity.
  repeat (split; [assumption|]).
  destruct (local_close_sequence ascii_encode s CLOSE_GOING_AWAY
              [0x62; 0x79; 0x65] Ho Hc Hl)
    as (s' & w & H & _ & F2 & _ & F4 & F5 & F6 & _).
  exists s', w. repeat split; assumption.
Defined.
